(** * Clementine: the organise dialog (src/ui/organisedialog.cpp)

    A shallow embedding of the dialog that collects the naming template,
    the destination and the file list of an organise batch, together with
    the format template engine it delegates to.

    - [FormatTemplate] : the template engine (core/organiseformat), whose
      implementation is not among the sources; it is modelled from the
      specification text.
    - [Dialog] : the dialog itself, translated function by function from
      organisedialog.cpp, over the interfaces of Qt and of the format
      object that the file only calls. *)

From Stdlib Require Import ZArith Lia Bool Ascii.
From stdpp Require Import base gmap strings list pretty sorting.

#[local] Set Warnings "-register-all".

(* ===================================================================== *)
(** * The format template engine *)
(* ===================================================================== *)

Module FormatTemplate.

(** Modelled from the spec: the registry of recognised tags of the format
    template engine (core/organiseformat is missing from the sources). *)
Inductive Tag :=
| TagTitle | TagAlbum | TagArtist | TagArtistInitial | TagAlbumArtist
| TagComposer | TagTrack | TagDisc | TagBpm | TagYear | TagGenre
| TagComment | TagLength | TagBitrate | TagSamplerate | TagExtension.

(** Modelled from the spec: the names under which the tags are written in a
    template, [%name].  They are the names the insert menu of the dialog
    offers. *)
Definition registry : list (string * Tag) :=
  [ ("title", TagTitle); ("album", TagAlbum); ("artist", TagArtist);
    ("artistinitial", TagArtistInitial); ("albumartist", TagAlbumArtist);
    ("composer", TagComposer); ("track", TagTrack); ("disc", TagDisc);
    ("bpm", TagBpm); ("year", TagYear); ("genre", TagGenre);
    ("comment", TagComment); ("length", TagLength); ("bitrate", TagBitrate);
    ("samplerate", TagSamplerate); ("extension", TagExtension) ].

Fixpoint lookup_tag (reg : list (string * Tag)) (name : string) : option Tag :=
  match reg with
  | [] => None
  | (n, t) :: reg' => if String.eqb n name then Some t else lookup_tag reg' name
  end.

(** Modelled from the spec: the immutable per-file metadata snapshot.  A
    string field is absent when empty, a numeric field when zero. *)
Record MetadataRecord := {
  artist : string;
  album : string;
  albumArtist : string;
  composer : string;
  title : string;
  genre : string;
  comment : string;
  extension : string;
  track : N;
  disc : N;
  bpm : N;
  year : N;
  lengthSeconds : N;
  bitrate : N;
  sampleRate : N;
  artistInitial : string
}.

(** Modelled from the spec: a compiled template is a sequence of segments,
    a conditional block being itself a sequence of segments. *)
Inductive Segment :=
| Literal (text : string)
| TagRef (t : Tag)
| Block (body : list Segment).

Definition FormatTemplate := list Segment.

(** ** Rendering of fields *)

(** Modelled from the spec: the rendering of a numeric field, in decimal
    without leading zeros; zero is the absent value and resolves to the
    empty string. *)
Definition render_number (n : N) : string :=
  if (n =? 0)%N then "" else pretty n.

Definition two_digits (n : N) : string :=
  if (n <? 10)%N then "0" +:+ pretty n else pretty n.

(** Modelled from the spec: the rendering of the length, [H:MM:SS] from
    one hour on, [MM:SS] below. *)
Definition render_length (secs : N) : string :=
  if (secs =? 0)%N then ""
  else
    let h := (secs / 3600)%N in
    let m := ((secs / 60) mod 60)%N in
    let s := (secs mod 60)%N in
    if (h =? 0)%N then two_digits m +:+ ":" +:+ two_digits s
    else pretty h +:+ ":" +:+ two_digits m +:+ ":" +:+ two_digits s.

(** Modelled from the spec: a tag segment resolves the corresponding field
    of the record; an absent field resolves to the empty string. *)
Definition resolve (t : Tag) (r : MetadataRecord) : string :=
  match t with
  | TagTitle => title r
  | TagAlbum => album r
  | TagArtist => artist r
  | TagArtistInitial => artistInitial r
  | TagAlbumArtist => albumArtist r
  | TagComposer => composer r
  | TagTrack => render_number (track r)
  | TagDisc => render_number (disc r)
  | TagBpm => render_number (bpm r)
  | TagYear => render_number (year r)
  | TagGenre => genre r
  | TagComment => comment r
  | TagLength => render_length (lengthSeconds r)
  | TagBitrate => render_number (bitrate r)
  | TagSamplerate => render_number (sampleRate r)
  | TagExtension => extension r
  end.

Definition is_empty (s : string) : bool :=
  match s with EmptyString => true | String _ _ => false end.

(** ** Evaluation of segments *)

(** Modelled from the spec: the condition a segment puts on the block it
    stands in.  A tag reference must resolve to a non-empty value; literal
    text and nested blocks put no condition on the enclosing block. *)
Definition segment_present (r : MetadataRecord) (seg : Segment) : bool :=
  match seg with
  | TagRef t => negb (is_empty (resolve t r))
  | Literal _ | Block _ => true
  end.

Definition concat_strings (l : list string) : string :=
  foldr String.append "" l.

(** Modelled from the spec: segments are evaluated left to right; a block
    is emitted, literal text and resolved tags, when every tag reference
    strictly inside it resolves to a non-empty value, and is omitted as a
    whole otherwise. *)
Fixpoint render (r : MetadataRecord) (seg : Segment) : string :=
  match seg with
  | Literal s => s
  | TagRef t => resolve t r
  | Block body =>
      if forallb (segment_present r) body
      then concat_strings (List.map (render r) body)
      else ""
  end.

(** Modelled from the spec: the segment evaluation pass of [Instantiate].
    The sanitisation pass that follows it in the engine is left out: the
    specification leaves its replacement characters open. *)
Definition evaluate (tmpl : FormatTemplate) (r : MetadataRecord) : string :=
  concat_strings (List.map (render r) tmpl).

(** ** Parsing *)

Inductive ParseError :=
| UnknownTag (name : string)
| UnbalancedOpen
| UnbalancedClose
| NestedBlock.

(** The parser reads the template one character at a time.  [p_outer] and
    [p_inner] hold the segments read so far, latest first, outside and
    inside the open block; [p_lit] is the pending literal text and
    [p_name] the tag name being read after a [%], both latest character
    first. *)
Record ParseState := {
  p_outer : list Segment;
  p_inner : option (list Segment);
  p_lit : string;
  p_name : option string
}.

Definition parse_start : ParseState :=
  {| p_outer := []; p_inner := None; p_lit := ""; p_name := None |}.

Definition push_segment (seg : Segment) (st : ParseState) : ParseState :=
  match p_inner st with
  | Some inner =>
      {| p_outer := p_outer st; p_inner := Some (seg :: inner);
         p_lit := p_lit st; p_name := p_name st |}
  | None =>
      {| p_outer := seg :: p_outer st; p_inner := None;
         p_lit := p_lit st; p_name := p_name st |}
  end.

Definition flush_literal (st : ParseState) : ParseState :=
  match p_lit st with
  | EmptyString => st
  | lit =>
      push_segment (Literal (String.rev lit))
        {| p_outer := p_outer st; p_inner := p_inner st;
           p_lit := ""; p_name := p_name st |}
  end.

(** A tag name is the longest run of lower-case letters after the [%]. *)
Definition is_name_char (c : ascii) : bool :=
  let n := nat_of_ascii c in (97 <=? n)%nat && (n <=? 122)%nat.

Definition finish_name (st : ParseState) : ParseError + ParseState :=
  match p_name st with
  | None => inr st
  | Some rname =>
      let name := String.rev rname in
      match lookup_tag registry name with
      | Some t =>
          inr (push_segment (TagRef t)
                 {| p_outer := p_outer st; p_inner := p_inner st;
                    p_lit := p_lit st; p_name := None |})
      | None => inl (UnknownTag name)
      end
  end.

(** One character outside a tag name.  A block inside a block is
    rejected. *)
Definition step_text (c : ascii) (st : ParseState) : ParseError + ParseState :=
  if Ascii.eqb c "%" then
    let st' := flush_literal st in
    inr {| p_outer := p_outer st'; p_inner := p_inner st';
           p_lit := ""; p_name := Some "" |}
  else if Ascii.eqb c "{" then
    match p_inner st with
    | Some _ => inl NestedBlock
    | None =>
        let st' := flush_literal st in
        inr {| p_outer := p_outer st'; p_inner := Some [];
               p_lit := ""; p_name := None |}
    end
  else if Ascii.eqb c "}" then
    let st' := flush_literal st in
    match p_inner st' with
    | None => inl UnbalancedClose
    | Some inner =>
        inr {| p_outer := Block (List.rev inner) :: p_outer st';
               p_inner := None; p_lit := ""; p_name := None |}
    end
  else
    inr {| p_outer := p_outer st; p_inner := p_inner st;
           p_lit := String c (p_lit st); p_name := p_name st |}.

Definition step (c : ascii) (st : ParseState) : ParseError + ParseState :=
  match p_name st with
  | Some rname =>
      if is_name_char c then
        inr {| p_outer := p_outer st; p_inner := p_inner st;
               p_lit := p_lit st; p_name := Some (String c rname) |}
      else
        match finish_name st with
        | inl e => inl e
        | inr st' => step_text c st'
        end
  | None => step_text c st
  end.

Fixpoint parse_from (s : string) (st : ParseState) : ParseError + FormatTemplate :=
  match s with
  | String c s' =>
      match step c st with
      | inl e => inl e
      | inr st' => parse_from s' st'
      end
  | EmptyString =>
      match finish_name st with
      | inl e => inl e
      | inr st' =>
          let st'' := flush_literal st' in
          match p_inner st'' with
          | Some _ => inl UnbalancedOpen
          | None => inr (List.rev (p_outer st''))
          end
      end
  end.

(** Modelled from the spec: [Parse(templateString)] yields the compiled
    template or a parse error: an unrecognised [%name] and unbalanced
    braces are errors. *)
Definition Parse (templateString : string) : ParseError + FormatTemplate :=
  parse_from templateString parse_start.

Fixpoint count_tags (seg : Segment) : nat :=
  match seg with
  | Literal _ => 0
  | TagRef _ => 1
  | Block body => list_sum (List.map count_tags body)
  end.

(** Modelled from the spec: a template is valid when it parses and holds
    at least one tag reference. *)
Definition IsValid (templateString : string) : bool :=
  match Parse templateString with
  | inl _ => false
  | inr tmpl => (0 <? list_sum (List.map count_tags tmpl))%nat
  end.

(** The substring test used to look for left-over literal text. *)
Fixpoint contains (needle hay : string) : bool :=
  String.prefix needle hay ||
  match hay with
  | EmptyString => false
  | String _ hay' => contains needle hay'
  end.

(** Whether a character occurs in a string. *)
Fixpoint has_char (c : ascii) (s : string) : bool :=
  match s with
  | EmptyString => false
  | String c' s' => Ascii.eqb c c' || has_char c s'
  end.

(** The two templates of the conditional block example. *)
Definition album_disc_template : FormatTemplate :=
  [TagRef TagAlbum; Block [Literal " (Disc "; TagRef TagDisc; Literal ")"]].

Definition artist_album_title_template : FormatTemplate :=
  [TagRef TagArtist; Literal "/"; TagRef TagAlbum;
   Block [Literal " (Disc "; TagRef TagDisc; Literal ")"];
   Literal "/"; TagRef TagTitle].

End FormatTemplate.

(* ===================================================================== *)
(** * The dialog *)
(* ===================================================================== *)

Module Dialog.

Local Open Scope Z_scope.

(** ** Constants *)

Definition kNumberOfPreviews : Z := 10.
Definition kDefaultFormat : string :=
  "%artist/%album{ (Disc %disc)}/{%track - }%title.%extension".
Definition kSettingsGroup : string := "OrganiseDialog".

(** ** Integers of the source *)

(** [quint64] values are kept in [0, 2^64); a [qlonglong] is converted by
    reduction modulo [2^64]. *)
Definition to_quint64 (z : Z) : Z := z mod 2 ^ 64.

(** ** Collaborating objects *)

(** The format object the dialog configures through [set_format],
    [set_replace_non_ascii], [set_replace_spaces] and [set_replace_the]. *)
Record OrganiseFormat := {
  format : string;
  replace_non_ascii : bool;
  replace_spaces : bool;
  replace_the : bool
}.

Definition set_format (v : string) (f : OrganiseFormat) : OrganiseFormat :=
  {| format := v; replace_non_ascii := replace_non_ascii f;
     replace_spaces := replace_spaces f; replace_the := replace_the f |}.
Definition set_replace_non_ascii (v : bool) (f : OrganiseFormat) : OrganiseFormat :=
  {| format := format f; replace_non_ascii := v;
     replace_spaces := replace_spaces f; replace_the := replace_the f |}.
Definition set_replace_spaces (v : bool) (f : OrganiseFormat) : OrganiseFormat :=
  {| format := format f; replace_non_ascii := replace_non_ascii f;
     replace_spaces := v; replace_the := replace_the f |}.
Definition set_replace_the (v : bool) (f : OrganiseFormat) : OrganiseFormat :=
  {| format := format f; replace_non_ascii := replace_non_ascii f;
     replace_spaces := replace_spaces f; replace_the := v |}.

(** A song as the dialog sees it: [filename()], [filesize()] (a signed
    [int], not positive when unknown), [is_valid()], and the tags the
    format object reads. *)
Record Song := {
  filename : string;
  filesize : Z;
  is_valid : bool;
  song_tags : FormatTemplate.MetadataRecord
}.

Definition SongList := list Song.

(** Of a storage target the dialog only asks its local root. *)
Record MusicStorage := { LocalPath : string }.

(** An opaque handle. *)
Definition TaskManager := nat.

(** What the file calls and does not define: the URL class and the path
    helper of Qt, and the two methods of the format object. *)
Class QtCore := {
  QUrl : Type;
  QUrl_new : string -> QUrl;
  isEmpty : QUrl -> bool;
  scheme : QUrl -> string;
  toLocalFile : QUrl -> string;
  toNativeSeparators : string -> string
}.

Class FormatEngine := {
  IsValid : OrganiseFormat -> bool;
  GetFilenameForSong : OrganiseFormat -> Song -> string
}.

(** ** Widgets *)

(** A row of the destination model with the data of the roles the dialog
    reads: [Role_Storage] as a storage pointer (possibly null),
    [Role_Capacity] and [Role_FreeSpace] through [toLongLong()]. *)
Record DestinationRow := {
  row_text : string;
  Role_Storage : option MusicStorage;
  Role_Capacity : Z;
  Role_FreeSpace : Z
}.

Record ComboBox := {
  model : list DestinationRow;
  currentIndex : Z
}.

Record FreeSpaceBar := {
  bar_visible : bool;
  free_bytes : Z;
  total_bytes : Z;
  additional_bytes : Z
}.

Record Ui_OrganiseDialog := {
  naming : string;
  replace_ascii : bool;
  ui_replace_spaces : bool;
  ui_replace_the : bool;
  overwrite : bool;
  eject_after : bool;
  eject_after_visible : bool;
  aftercopying : Z;
  destination : ComboBox;
  free_space : FreeSpaceBar;
  ok_enabled : bool;
  preview : list string;
  preview_group_visible : bool;
  naming_group_visible : bool
}.

Record OrganiseDialog := {
  ui_ : Ui_OrganiseDialog;
  task_manager_ : TaskManager;
  total_size_ : Z;
  filenames_ : list string;
  preview_songs_ : SongList;
  format_ : OrganiseFormat;
  accepted : bool
}.

(** *** Field updates *)

Definition ui_set_naming (v : string) (u : Ui_OrganiseDialog) : Ui_OrganiseDialog :=
  {| naming := v; replace_ascii := replace_ascii u;
     ui_replace_spaces := ui_replace_spaces u; ui_replace_the := ui_replace_the u;
     overwrite := overwrite u; eject_after := eject_after u;
     eject_after_visible := eject_after_visible u; aftercopying := aftercopying u;
     destination := destination u; free_space := free_space u;
     ok_enabled := ok_enabled u; preview := preview u;
     preview_group_visible := preview_group_visible u;
     naming_group_visible := naming_group_visible u |}.

Definition ui_set_replace_ascii (v : bool) (u : Ui_OrganiseDialog) : Ui_OrganiseDialog :=
  {| naming := naming u; replace_ascii := v;
     ui_replace_spaces := ui_replace_spaces u; ui_replace_the := ui_replace_the u;
     overwrite := overwrite u; eject_after := eject_after u;
     eject_after_visible := eject_after_visible u; aftercopying := aftercopying u;
     destination := destination u; free_space := free_space u;
     ok_enabled := ok_enabled u; preview := preview u;
     preview_group_visible := preview_group_visible u;
     naming_group_visible := naming_group_visible u |}.

Definition ui_set_replace_spaces (v : bool) (u : Ui_OrganiseDialog) : Ui_OrganiseDialog :=
  {| naming := naming u; replace_ascii := replace_ascii u;
     ui_replace_spaces := v; ui_replace_the := ui_replace_the u;
     overwrite := overwrite u; eject_after := eject_after u;
     eject_after_visible := eject_after_visible u; aftercopying := aftercopying u;
     destination := destination u; free_space := free_space u;
     ok_enabled := ok_enabled u; preview := preview u;
     preview_group_visible := preview_group_visible u;
     naming_group_visible := naming_group_visible u |}.

Definition ui_set_replace_the (v : bool) (u : Ui_OrganiseDialog) : Ui_OrganiseDialog :=
  {| naming := naming u; replace_ascii := replace_ascii u;
     ui_replace_spaces := ui_replace_spaces u; ui_replace_the := v;
     overwrite := overwrite u; eject_after := eject_after u;
     eject_after_visible := eject_after_visible u; aftercopying := aftercopying u;
     destination := destination u; free_space := free_space u;
     ok_enabled := ok_enabled u; preview := preview u;
     preview_group_visible := preview_group_visible u;
     naming_group_visible := naming_group_visible u |}.

Definition ui_set_overwrite (v : bool) (u : Ui_OrganiseDialog) : Ui_OrganiseDialog :=
  {| naming := naming u; replace_ascii := replace_ascii u;
     ui_replace_spaces := ui_replace_spaces u; ui_replace_the := ui_replace_the u;
     overwrite := v; eject_after := eject_after u;
     eject_after_visible := eject_after_visible u; aftercopying := aftercopying u;
     destination := destination u; free_space := free_space u;
     ok_enabled := ok_enabled u; preview := preview u;
     preview_group_visible := preview_group_visible u;
     naming_group_visible := naming_group_visible u |}.

Definition ui_set_eject_after (v : bool) (u : Ui_OrganiseDialog) : Ui_OrganiseDialog :=
  {| naming := naming u; replace_ascii := replace_ascii u;
     ui_replace_spaces := ui_replace_spaces u; ui_replace_the := ui_replace_the u;
     overwrite := overwrite u; eject_after := v;
     eject_after_visible := eject_after_visible u; aftercopying := aftercopying u;
     destination := destination u; free_space := free_space u;
     ok_enabled := ok_enabled u; preview := preview u;
     preview_group_visible := preview_group_visible u;
     naming_group_visible := naming_group_visible u |}.

Definition ui_set_eject_after_visible (v : bool) (u : Ui_OrganiseDialog) : Ui_OrganiseDialog :=
  {| naming := naming u; replace_ascii := replace_ascii u;
     ui_replace_spaces := ui_replace_spaces u; ui_replace_the := ui_replace_the u;
     overwrite := overwrite u; eject_after := eject_after u;
     eject_after_visible := v; aftercopying := aftercopying u;
     destination := destination u; free_space := free_space u;
     ok_enabled := ok_enabled u; preview := preview u;
     preview_group_visible := preview_group_visible u;
     naming_group_visible := naming_group_visible u |}.

Definition ui_set_aftercopying (v : Z) (u : Ui_OrganiseDialog) : Ui_OrganiseDialog :=
  {| naming := naming u; replace_ascii := replace_ascii u;
     ui_replace_spaces := ui_replace_spaces u; ui_replace_the := ui_replace_the u;
     overwrite := overwrite u; eject_after := eject_after u;
     eject_after_visible := eject_after_visible u; aftercopying := v;
     destination := destination u; free_space := free_space u;
     ok_enabled := ok_enabled u; preview := preview u;
     preview_group_visible := preview_group_visible u;
     naming_group_visible := naming_group_visible u |}.

Definition ui_set_destination (v : ComboBox) (u : Ui_OrganiseDialog) : Ui_OrganiseDialog :=
  {| naming := naming u; replace_ascii := replace_ascii u;
     ui_replace_spaces := ui_replace_spaces u; ui_replace_the := ui_replace_the u;
     overwrite := overwrite u; eject_after := eject_after u;
     eject_after_visible := eject_after_visible u; aftercopying := aftercopying u;
     destination := v; free_space := free_space u;
     ok_enabled := ok_enabled u; preview := preview u;
     preview_group_visible := preview_group_visible u;
     naming_group_visible := naming_group_visible u |}.

Definition ui_set_free_space (v : FreeSpaceBar) (u : Ui_OrganiseDialog) : Ui_OrganiseDialog :=
  {| naming := naming u; replace_ascii := replace_ascii u;
     ui_replace_spaces := ui_replace_spaces u; ui_replace_the := ui_replace_the u;
     overwrite := overwrite u; eject_after := eject_after u;
     eject_after_visible := eject_after_visible u; aftercopying := aftercopying u;
     destination := destination u; free_space := v;
     ok_enabled := ok_enabled u; preview := preview u;
     preview_group_visible := preview_group_visible u;
     naming_group_visible := naming_group_visible u |}.

Definition ui_set_ok_enabled (v : bool) (u : Ui_OrganiseDialog) : Ui_OrganiseDialog :=
  {| naming := naming u; replace_ascii := replace_ascii u;
     ui_replace_spaces := ui_replace_spaces u; ui_replace_the := ui_replace_the u;
     overwrite := overwrite u; eject_after := eject_after u;
     eject_after_visible := eject_after_visible u; aftercopying := aftercopying u;
     destination := destination u; free_space := free_space u;
     ok_enabled := v; preview := preview u;
     preview_group_visible := preview_group_visible u;
     naming_group_visible := naming_group_visible u |}.

(** The three widgets of the preview display, written together. *)
Definition ui_set_preview_display (items : list string) (preview_vis naming_vis : bool)
    (u : Ui_OrganiseDialog) : Ui_OrganiseDialog :=
  {| naming := naming u; replace_ascii := replace_ascii u;
     ui_replace_spaces := ui_replace_spaces u; ui_replace_the := ui_replace_the u;
     overwrite := overwrite u; eject_after := eject_after u;
     eject_after_visible := eject_after_visible u; aftercopying := aftercopying u;
     destination := destination u; free_space := free_space u;
     ok_enabled := ok_enabled u; preview := items;
     preview_group_visible := preview_vis;
     naming_group_visible := naming_vis |}.

Definition with_ui (f : Ui_OrganiseDialog -> Ui_OrganiseDialog) (d : OrganiseDialog)
    : OrganiseDialog :=
  {| ui_ := f (ui_ d); task_manager_ := task_manager_ d;
     total_size_ := total_size_ d; filenames_ := filenames_ d;
     preview_songs_ := preview_songs_ d; format_ := format_ d;
     accepted := accepted d |}.

Definition with_format (f : OrganiseFormat) (d : OrganiseDialog) : OrganiseDialog :=
  {| ui_ := ui_ d; task_manager_ := task_manager_ d;
     total_size_ := total_size_ d; filenames_ := filenames_ d;
     preview_songs_ := preview_songs_ d; format_ := f;
     accepted := accepted d |}.

Definition with_filenames (files : list string) (total_size : Z) (songs : SongList)
    (d : OrganiseDialog) : OrganiseDialog :=
  {| ui_ := ui_ d; task_manager_ := task_manager_ d;
     total_size_ := total_size; filenames_ := files;
     preview_songs_ := songs; format_ := format_ d;
     accepted := accepted d |}.

Definition QDialog_accept (d : OrganiseDialog) : OrganiseDialog :=
  {| ui_ := ui_ d; task_manager_ := task_manager_ d;
     total_size_ := total_size_ d; filenames_ := filenames_ d;
     preview_songs_ := preview_songs_ d; format_ := format_ d;
     accepted := true |}.

(** ** The file system read by the preview loader *)

(** A file carries the song that [Song::InitFromFile] builds from it, not
    valid when the file cannot be read as a song; a directory carries its
    raw listing.  The hierarchy under a name is a finite tree. *)
Inductive FsNode :=
| FsFile (song : Song)
| FsDir (listing : list DirEntry)
with DirEntry :=
| Entry (name : string) (readable : bool) (node : FsNode).

Definition entry_name (e : DirEntry) : string :=
  match e with Entry n _ _ => n end.
Definition entry_readable (e : DirEntry) : bool :=
  match e with Entry _ r _ => r end.
Definition entry_node (e : DirEntry) : FsNode :=
  match e with Entry _ _ n => n end.

(** A hidden entry, as Unix has it: its name starts with a dot. *)
Definition hidden (e : DirEntry) : bool := String.prefix "." (entry_name e).

(** The filter [Dirs | Files | NoDotAndDotDot | Readable] of [entryList].
    [QDir::Hidden] is not among the flags, and hidden entries are not
    listed without it. *)
Definition listed (e : DirEntry) : bool :=
  entry_readable e
  && negb (String.eqb (entry_name e) ".")
  && negb (String.eqb (entry_name e) "..")
  && negb (hidden e).

Definition entryList (listing : list DirEntry) : list DirEntry :=
  List.filter listed listing.

(** The files and directories that exist, by name; a name that is not
    bound is not there. *)
Definition FileSystem := gmap string FsNode.

Definition count {A} (l : list A) : Z := Z.of_nat (length l).

(** Settings of the application and the batches started so far. *)
Inductive QVariant :=
| Invalid
| VString (s : string)
| VBool (b : bool).

Record Organise := {
  o_task_manager : TaskManager;
  o_destination : option MusicStorage;
  o_format : OrganiseFormat;
  o_copy : bool;
  o_overwrite : bool;
  o_files : list string;
  o_eject_after : bool
}.

Record World := {
  settings : gmap string QVariant;
  started : list Organise
}.

Section Operations.

Context `{Qt : QtCore} `{Engine : FormatEngine}.

(** ** UpdatePreviews *)

(** [model()->index(currentIndex(), 0)]: a valid index is a row of the
    model. *)
Definition model_index (c : ComboBox) : option DestinationRow :=
  if currentIndex c <? 0 then None else model c !! Z.to_nat (currentIndex c).

(** [data(role)] of an invalid index is an invalid variant: a null pointer
    and the number 0. *)
Definition data_storage (index : option DestinationRow) : option MusicStorage :=
  match index with
  | Some row => Role_Storage row
  | None => None
  end.

Definition data_toLongLong (role : DestinationRow -> Z) (index : option DestinationRow) : Z :=
  match index with
  | Some row => role row
  | None => 0
  end.

Definition has_local_path (storage : option MusicStorage) : bool :=
  match storage with
  | Some s => negb (FormatTemplate.is_empty (LocalPath s))
  | None => false
  end.

Definition update_free_space (capacity free : Z) (bar : FreeSpaceBar) : FreeSpaceBar :=
  if capacity =? 0 then
    {| bar_visible := false; free_bytes := free_bytes bar;
       total_bytes := total_bytes bar; additional_bytes := additional_bytes bar |}
  else
    {| bar_visible := true; free_bytes := free;
       total_bytes := capacity; additional_bytes := additional_bytes bar |}.

Definition set_additional_bytes (v : Z) (bar : FreeSpaceBar) : FreeSpaceBar :=
  {| bar_visible := bar_visible bar; free_bytes := free_bytes bar;
     total_bytes := total_bytes bar; additional_bytes := v |}.

(** The items added to the preview list for a local destination. *)
Definition preview_items (storage : option MusicStorage) (fmt : OrganiseFormat)
    (songs : SongList) : list string :=
  match storage with
  | Some s =>
      List.map (fun song =>
                  toNativeSeparators
                    (LocalPath s +:+ "/" +:+ GetFilenameForSong fmt song))
               songs
  | None => []
  end.

(** The value given to the Ok button. *)
Definition ok_value (format_valid : bool) (storage : option MusicStorage)
    (files : list string) (capacity free total_size : Z) : bool :=
  let ok :=
    format_valid
    && (match storage with Some _ => true | None => false end)
    && negb (match files with [] => true | _ => false end) in
  if negb (capacity =? 0) && (free <? total_size) then false else ok.

Definition UpdatePreviews (d : OrganiseDialog) : OrganiseDialog :=
  let index := model_index (destination (ui_ d)) in
  let storage := data_storage index in
  let has_local_destination := has_local_path storage in
  (* Update the free space bar *)
  let capacity := to_quint64 (data_toLongLong Role_Capacity index) in
  let free := to_quint64 (data_toLongLong Role_FreeSpace index) in
  let bar := update_free_space capacity free (free_space (ui_ d)) in
  (* Update the format object *)
  let fmt :=
    set_replace_the (ui_replace_the (ui_ d))
      (set_replace_spaces (ui_replace_spaces (ui_ d))
         (set_replace_non_ascii (replace_ascii (ui_ d))
            (set_format (naming (ui_ d)) (format_ d)))) in
  let format_valid := IsValid fmt in
  (* Are we gonna enable the ok button? *)
  let ok := ok_value format_valid storage (filenames_ d) capacity free (total_size_ d) in
  let d1 :=
    with_ui (ui_set_ok_enabled ok) (with_ui (ui_set_free_space bar) (with_format fmt d)) in
  if negb format_valid then d1
  else
    (* Update the previews *)
    let items :=
      if has_local_destination
      then preview_items storage fmt (preview_songs_ d)
      else [] in
    with_ui (ui_set_preview_display items has_local_destination has_local_destination) d1.

(** ** LoadPreviewSongs *)

(** The recursive loader, on the node found under the file name.  The
    entry [filename + "/" + entry] of a directory is the child [child] of
    its listing. *)
Fixpoint load_node (node : FsNode) (preview_songs : SongList) : SongList :=
  if kNumberOfPreviews <=? count preview_songs then preview_songs
  else
    match node with
    | FsDir listing =>
        (fix each (entries : list DirEntry) (songs : SongList) : SongList :=
           match entries with
           | [] => songs
           | Entry name readable child :: rest =>
               if listed (Entry name readable child)
               then each rest (load_node child songs)
               else each rest songs
           end) listing preview_songs
    | FsFile song =>
        if is_valid song then preview_songs ++ [song] else preview_songs
    end.

(** A name under which nothing is found is no directory, and the song
    read from it is not valid. *)
Definition LoadPreviewSongs (fs : FileSystem) (filename : string)
    (preview_songs : SongList) : SongList :=
  match fs !! filename with
  | Some node => load_node node preview_songs
  | None => preview_songs
  end.

(** ** SetFilenames, SetSongs, SetUrls *)

Definition SetFilenames (fs : FileSystem) (filenames : list string) (total_size : Z)
    (d : OrganiseDialog) : OrganiseDialog :=
  (* Load some of the songs to show in the preview *)
  let n := Z.min (count filenames) kNumberOfPreviews in
  let songs :=
    foldl (fun songs f => LoadPreviewSongs fs f songs) [] (take (Z.to_nat n) filenames) in
  let d1 := with_filenames filenames total_size songs d in
  UpdatePreviews
    (with_ui (fun u => ui_set_free_space (set_additional_bytes total_size (free_space u)) u) d1).

(** One turn of the loop of [SetSongs] on the pair of the running total
    and of the names collected so far. *)
Definition SetSongs_step (acc : Z * list string) (song : Song) : Z * list string :=
  let url := QUrl_new (filename song) in
  if isEmpty url then acc
  else if negb (FormatTemplate.is_empty (scheme url)) && negb (String.eqb (scheme url) "file")
  then acc
  else
    (if 0 <? filesize song then to_quint64 (fst acc + filesize song) else fst acc,
     snd acc ++ [toLocalFile url]).

Definition SetSongs (fs : FileSystem) (songs : SongList) (d : OrganiseDialog)
    : OrganiseDialog :=
  let '(total_size, filenames) := foldl SetSongs_step (0, []) songs in
  SetFilenames fs filenames total_size d.

Definition SetUrls (fs : FileSystem) (urls : list QUrl) (total_size : Z)
    (d : OrganiseDialog) : OrganiseDialog :=
  (* Only add file:// URLs *)
  let filenames :=
    List.map toLocalFile (List.filter (fun url => String.eqb (scheme url) "file") urls) in
  SetFilenames fs filenames total_size d.

(** ** Widget setters and their signals

    The constructor connects [currentIndexChanged] of the destination,
    [textChanged] of the naming field and [toggled] of the three replace
    boxes to [UpdatePreviews]; the slot runs inside the setter.  A check
    box and a combo box announce a value only when it changes, the text
    field announces every new content. *)

Definition naming_setPlainText (text : string) (d : OrganiseDialog) : OrganiseDialog :=
  UpdatePreviews (with_ui (ui_set_naming text) d).

Definition replace_ascii_setChecked (b : bool) (d : OrganiseDialog) : OrganiseDialog :=
  if Bool.eqb b (replace_ascii (ui_ d)) then d
  else UpdatePreviews (with_ui (ui_set_replace_ascii b) d).

Definition replace_spaces_setChecked (b : bool) (d : OrganiseDialog) : OrganiseDialog :=
  if Bool.eqb b (ui_replace_spaces (ui_ d)) then d
  else UpdatePreviews (with_ui (ui_set_replace_spaces b) d).

Definition replace_the_setChecked (b : bool) (d : OrganiseDialog) : OrganiseDialog :=
  if Bool.eqb b (ui_replace_the (ui_ d)) then d
  else UpdatePreviews (with_ui (ui_set_replace_the b) d).

Definition overwrite_setChecked (b : bool) (d : OrganiseDialog) : OrganiseDialog :=
  with_ui (ui_set_overwrite b) d.

Definition eject_after_setChecked (b : bool) (d : OrganiseDialog) : OrganiseDialog :=
  with_ui (ui_set_eject_after b) d.

Definition aftercopying_setCurrentIndex (i : Z) (d : OrganiseDialog) : OrganiseDialog :=
  with_ui (ui_set_aftercopying i) d.

(** An index outside the model selects nothing, which reads as -1. *)
Definition destination_setCurrentIndex (i : Z) (d : OrganiseDialog) : OrganiseDialog :=
  let c := destination (ui_ d) in
  let i' := if (0 <=? i) && (i <? count (model c)) then i else -1 in
  if i' =? currentIndex c then d
  else
    UpdatePreviews
      (with_ui (ui_set_destination {| model := model c; currentIndex := i' |}) d).

(** [setModel] installs the rows and selects the first of them. *)
Definition destination_setModel (rows : list DestinationRow) (d : OrganiseDialog)
    : OrganiseDialog :=
  let c := destination (ui_ d) in
  let i' := match rows with [] => -1 | _ => 0 end in
  let d1 := with_ui (ui_set_destination {| model := rows; currentIndex := i' |}) d in
  if i' =? currentIndex c then d1 else UpdatePreviews d1.

(** ** The remaining members *)

Definition SetDestinationModel (rows : list DestinationRow) (devices : bool)
    (d : OrganiseDialog) : OrganiseDialog :=
  with_ui (ui_set_eject_after_visible devices) (destination_setModel rows d).

Definition SetCopy (copy : bool) (d : OrganiseDialog) : OrganiseDialog :=
  aftercopying_setCurrentIndex (if copy then 0 else 1) d.

(** [insertPlainText] writes at the text cursor: the selected text, if
    any, is deleted and the new text takes its place.  The cursor is given
    by the position where the selection starts and the number of
    characters selected, none for a bare cursor. *)
Definition InsertTag (sel_start sel_length : nat) (tag : string) (d : OrganiseDialog)
    : OrganiseDialog :=
  let text := naming (ui_ d) in
  let before := String.substring 0 sel_start text in
  let rest := String.substring sel_start (String.length text - sel_start) text in
  let after := String.substring sel_length (String.length rest - sel_length) rest in
  naming_setPlainText (before +:+ ("%" +:+ tag) +:+ after) d.

Definition Reset (d : OrganiseDialog) : OrganiseDialog :=
  let d := naming_setPlainText kDefaultFormat d in
  let d := replace_ascii_setChecked false d in
  let d := replace_spaces_setChecked false d in
  let d := replace_the_setChecked false d in
  let d := overwrite_setChecked true d in
  eject_after_setChecked false d.

(** *** Settings *)

Definition lower_char (c : ascii) : ascii :=
  let n := nat_of_ascii c in
  if ((65 <=? n) && (n <=? 90))%nat then ascii_of_nat (n + 32) else c.

Fixpoint toLower (s : string) : string :=
  match s with
  | EmptyString => EmptyString
  | String c s' => String (lower_char c) (toLower s')
  end.

Definition toString (v : QVariant) : string :=
  match v with
  | Invalid => ""
  | VString s => s
  | VBool b => if b then "true" else "false"
  end.

Definition toBool (v : QVariant) : bool :=
  match v with
  | Invalid => false
  | VBool b => b
  | VString s =>
      let str := toLower s in
      negb (String.eqb str "0" || String.eqb str "false" || FormatTemplate.is_empty str)
  end.

Definition settings_key (key : string) : string := kSettingsGroup +:+ "/" +:+ key.

Definition value (s : gmap string QVariant) (key : string) (default : QVariant) : QVariant :=
  match s !! settings_key key with
  | Some v => v
  | None => default
  end.

Definition setValue (key : string) (v : QVariant) (s : gmap string QVariant)
    : gmap string QVariant :=
  <[settings_key key := v]> s.

Fixpoint findText_from (text : string) (rows : list DestinationRow) (i : Z) : Z :=
  match rows with
  | [] => -1
  | row :: rows' =>
      if String.eqb (row_text row) text then i else findText_from text rows' (i + 1)
  end.

Definition findText (text : string) (c : ComboBox) : Z := findText_from text (model c) 0.

Definition currentText (c : ComboBox) : string :=
  match model_index c with
  | Some row => row_text row
  | None => ""
  end.

Definition showEvent (s : gmap string QVariant) (d : OrganiseDialog) : OrganiseDialog :=
  let d := naming_setPlainText (toString (value s "format" (VString kDefaultFormat))) d in
  let d := replace_ascii_setChecked (toBool (value s "replace_ascii" (VBool false))) d in
  let d := replace_spaces_setChecked (toBool (value s "replace_spaces" (VBool false))) d in
  let d := replace_the_setChecked (toBool (value s "replace_the" (VBool false))) d in
  let d := overwrite_setChecked (toBool (value s "overwrite" (VBool true))) d in
  let d := eject_after_setChecked (toBool (value s "eject_after" (VBool false))) d in
  let dest := toString (value s "destination" Invalid) in
  let index := findText dest (destination (ui_ d)) in
  if negb (index =? -1) && negb (FormatTemplate.is_empty dest)
  then destination_setCurrentIndex index d
  else d.

(** The batch built by [accept]. *)
Definition accept_organise (d : OrganiseDialog) : Organise :=
  let index := model_index (destination (ui_ d)) in
  let storage := data_storage index in
  let copy := aftercopying (ui_ d) =? 0 in
  {| o_task_manager := task_manager_ d;
     o_destination := storage;
     o_format := format_ d;
     o_copy := copy;
     o_overwrite := overwrite (ui_ d);
     o_files := filenames_ d;
     o_eject_after := eject_after (ui_ d) |}.

Definition accept (w : World) (d : OrganiseDialog) : World * OrganiseDialog :=
  let s := settings w in
  let s := setValue "format" (VString (naming (ui_ d))) s in
  let s := setValue "replace_ascii" (VBool (replace_ascii (ui_ d))) s in
  let s := setValue "replace_spaces" (VBool (ui_replace_spaces (ui_ d))) s in
  let s := setValue "replace_the" (VBool (ui_replace_the (ui_ d))) s in
  let s := setValue "overwrite" (VBool (overwrite (ui_ d))) s in
  let s := setValue "destination" (VString (currentText (destination (ui_ d)))) s in
  let s := setValue "eject_after" (VBool (eject_after (ui_ d))) s in
  (* It deletes itself when it's finished. *)
  let organise := accept_organise d in
  ({| settings := s; started := started w ++ [organise] |}, QDialog_accept d).

(** ** Runs of the dialog *)

(** What can happen to a dialog between the moment it is shown and the
    moment it is accepted: the user edits a widget, or a member is
    called. *)
Inductive Action :=
| EditNaming (text : string)
| ToggleReplaceAscii (b : bool)
| ToggleReplaceSpaces (b : bool)
| ToggleReplaceThe (b : bool)
| ToggleOverwrite (b : bool)
| ToggleEjectAfter (b : bool)
| ChooseAfterCopying (i : Z)
| ChooseDestination (i : Z)
| CallSetDestinationModel (rows : list DestinationRow) (devices : bool)
| CallSetSongs (fs : FileSystem) (songs : SongList)
| CallSetUrls (fs : FileSystem) (urls : list QUrl) (total_size : Z)
| CallSetFilenames (fs : FileSystem) (filenames : list string) (total_size : Z)
| CallSetCopy (copy : bool)
| CallInsertTag (sel_start sel_length : nat) (tag : string)
| CallReset
| CallShowEvent (s : gmap string QVariant).

Definition perform (a : Action) (d : OrganiseDialog) : OrganiseDialog :=
  match a with
  | EditNaming text => naming_setPlainText text d
  | ToggleReplaceAscii b => replace_ascii_setChecked b d
  | ToggleReplaceSpaces b => replace_spaces_setChecked b d
  | ToggleReplaceThe b => replace_the_setChecked b d
  | ToggleOverwrite b => overwrite_setChecked b d
  | ToggleEjectAfter b => eject_after_setChecked b d
  | ChooseAfterCopying i => aftercopying_setCurrentIndex i d
  | ChooseDestination i => destination_setCurrentIndex i d
  | CallSetDestinationModel rows devices => SetDestinationModel rows devices d
  | CallSetSongs fs songs => SetSongs fs songs d
  | CallSetUrls fs urls total_size => SetUrls fs urls total_size d
  | CallSetFilenames fs filenames total_size => SetFilenames fs filenames total_size d
  | CallSetCopy copy => SetCopy copy d
  | CallInsertTag sel_start sel_length tag => InsertTag sel_start sel_length tag d
  | CallReset => Reset d
  | CallShowEvent s => showEvent s d
  end.

Definition perform_all (actions : list Action) (d : OrganiseDialog) : OrganiseDialog :=
  foldl (fun d a => perform a d) d actions.

(** ** Notions used to state the properties *)

(** The format the widgets describe: the text of the naming field and the
    three replace boxes. *)
Definition ui_format (u : Ui_OrganiseDialog) : OrganiseFormat :=
  {| format := naming u; replace_non_ascii := replace_ascii u;
     replace_spaces := ui_replace_spaces u; replace_the := ui_replace_the u |}.

(** The widgets that hold what the user chose. *)
Definition inputs (u : Ui_OrganiseDialog) :=
  (naming u, replace_ascii u, ui_replace_spaces u, ui_replace_the u,
   overwrite u, eject_after u, aftercopying u, destination u).

(** The format object agrees with the widgets. *)
Definition format_current (d : OrganiseDialog) : Prop :=
  format_ d = ui_format (ui_ d).

(** The row the destination selector points at, and what it reports. *)
Definition selected_storage (d : OrganiseDialog) : option MusicStorage :=
  data_storage (model_index (destination (ui_ d))).
Definition reported_capacity (d : OrganiseDialog) : Z :=
  data_toLongLong Role_Capacity (model_index (destination (ui_ d))).
Definition reported_free (d : OrganiseDialog) : Z :=
  data_toLongLong Role_FreeSpace (model_index (destination (ui_ d))).

(** A song has a local URL when its URL is not empty and has no scheme or
    the scheme [file]. *)
Definition has_local_url (song : Song) : bool :=
  let url := QUrl_new (filename song) in
  negb (isEmpty url)
  && (FormatTemplate.is_empty (scheme url) || String.eqb (scheme url) "file").

(** The songs whose size enters the total. *)
Definition counted (song : Song) : bool := has_local_url song && (0 <? filesize song).

Definition local_file (song : Song) : string := toLocalFile (QUrl_new (filename song)).

Definition sum_sizes (songs : SongList) : Z :=
  foldr (fun song acc => filesize song + acc) 0 songs.

(** The valid songs under a node, directories expanded in listing
    order. *)
Fixpoint songs_under (node : FsNode) : SongList :=
  match node with
  | FsFile song => if is_valid song then [song] else []
  | FsDir listing =>
      (fix each (entries : list DirEntry) : SongList :=
         match entries with
         | [] => []
         | Entry name readable child :: rest =>
             if listed (Entry name readable child)
             then songs_under child ++ each rest
             else each rest
         end) listing
  end.

(** The number of preview songs that can still be loaded. *)
Definition room (songs : SongList) : nat := Z.to_nat (kNumberOfPreviews - count songs).

Definition songs_at (fs : FileSystem) (filename : string) : SongList :=
  match fs !! filename with
  | Some node => songs_under node
  | None => []
  end.

(** The valid songs under a list of names, name after name. *)
Definition found_songs (fs : FileSystem) (filenames : list string) : SongList :=
  flat_map (songs_at fs) filenames.

(** The Ok button shows what [UpdatePreviews] would compute for it now. *)
Definition ok_fresh (d : OrganiseDialog) : Prop :=
  ok_enabled (ui_ d)
  = ok_value (IsValid (ui_format (ui_ d))) (selected_storage d) (filenames_ d)
      (to_quint64 (reported_capacity d)) (to_quint64 (reported_free d))
      (total_size_ d).

(** The actions that leave the rows of the destination model alone. *)
Definition keeps_model (a : Action) : bool :=
  match a with
  | CallSetDestinationModel _ _ => false
  | _ => true
  end.

(** The members of the dialog that are not widgets. *)
Definition members (d : OrganiseDialog) :=
  (task_manager_ d, total_size_ d, filenames_ d, preview_songs_ d, accepted d).

(** The six widgets [showEvent] restores before it looks for the
    destination. *)
Definition restore_widgets (s : gmap string QVariant) (d : OrganiseDialog)
    : OrganiseDialog :=
  let d := naming_setPlainText (toString (value s "format" (VString kDefaultFormat))) d in
  let d := replace_ascii_setChecked (toBool (value s "replace_ascii" (VBool false))) d in
  let d := replace_spaces_setChecked (toBool (value s "replace_spaces" (VBool false))) d in
  let d := replace_the_setChecked (toBool (value s "replace_the" (VBool false))) d in
  let d := overwrite_setChecked (toBool (value s "overwrite" (VBool true))) d in
  eject_after_setChecked (toBool (value s "eject_after" (VBool false))) d.

(** The destination stored in the settings. *)
Definition stored_destination (s : gmap string QVariant) : string :=
  toString (value s "destination" Invalid).

(** The keys [accept] writes. *)
Definition accept_keys : list string :=
  List.map settings_key
    ["format"; "replace_ascii"; "replace_spaces"; "replace_the"; "overwrite";
     "destination"; "eject_after"].

(** What no widget setter writes: the members, the visibility of the
    eject box and the after-copying choice. *)
Definition kept (d : OrganiseDialog) :=
  (members d, eject_after_visible (ui_ d), aftercopying (ui_ d)).

(** The path shown for a preview song under a local root. *)
Definition preview_path (s : MusicStorage) (fmt : OrganiseFormat) (song : Song) : string :=
  toNativeSeparators (LocalPath s +:+ "/" +:+ GetFilenameForSong fmt song).

End Operations.

(** ** The insert menu built by the constructor *)

(** The valid tags, under the titles the constructor gives them, in the
    order of the assignments. *)
Definition tag_table : list (string * string) :=
  [ ("Title", "title"); ("Album", "album"); ("Artist", "artist");
    ("Artist's initial", "artistinitial"); ("Album artist", "albumartist");
    ("Composer", "composer"); ("Track", "track"); ("Disc", "disc");
    ("BPM", "bpm"); ("Year", "year"); ("Genre", "genre");
    ("Comment", "comment"); ("Length", "length"); ("Bitrate", "bitrate");
    ("Samplerate", "samplerate"); ("File extension", "extension") ].

(** [tags[tr(title)] = tag], one assignment after the other; [tr] is the
    translation in force. *)
Definition assign_tag (tr : string -> string) (tags : gmap string string)
    (entry : string * string) : gmap string string :=
  <[tr (fst entry) := snd entry]> tags.

Definition build_tags (tr : string -> string) (table : list (string * string))
    : gmap string string :=
  foldl (assign_tag tr) ∅ table.

(** The actions of the menu, title and tag inserted: the titles of the map
    sorted by the order [le] of the strings, each with the tag the map
    holds for it. *)
Definition tag_menu (tr : string -> string) (le : string -> string -> Prop)
    `{!RelDecision le} : list (string * string) :=
  let tags := build_tags tr tag_table in
  let tag_titles := merge_sort le (fst <$> map_to_list tags) in
  List.map (fun title => (title, default "" (tags !! title))) tag_titles.

(** ** A concrete setting for the examples *)

Module Examples.

(** URLs with the schemes [file] and [http], anything else being a bare
    path; local separators are the ones of Unix. *)
Record Url := { u_scheme : string; u_path : string }.

Definition parse_url (s : string) : Url :=
  if String.prefix "file://" s
  then {| u_scheme := "file"; u_path := String.substring 7 (String.length s - 7) s |}
  else if String.prefix "http://" s
  then {| u_scheme := "http"; u_path := String.substring 7 (String.length s - 7) s |}
  else {| u_scheme := ""; u_path := s |}.

#[export] Instance unix_qt : QtCore :=
  {| QUrl := Url;
     QUrl_new := parse_url;
     isEmpty := fun u => FormatTemplate.is_empty (u_scheme u) && FormatTemplate.is_empty (u_path u);
     scheme := u_scheme;
     toLocalFile := u_path;
     toNativeSeparators := fun s => s |}.

(** The engine of [FormatTemplate] behind the two methods of the format
    object. *)
#[export] Instance template_engine : FormatEngine :=
  {| IsValid := fun f => FormatTemplate.IsValid (format f);
     GetFilenameForSong := fun f song =>
       match FormatTemplate.Parse (format f) with
       | inr tmpl => FormatTemplate.evaluate tmpl (song_tags song)
       | inl _ => ""
       end |}.

Definition tags_1 : FormatTemplate.MetadataRecord :=
  {| FormatTemplate.artist := "Artist"; FormatTemplate.album := "Album";
     FormatTemplate.albumArtist := ""; FormatTemplate.composer := "";
     FormatTemplate.title := "Title"; FormatTemplate.genre := "";
     FormatTemplate.comment := ""; FormatTemplate.extension := "mp3";
     FormatTemplate.track := 3; FormatTemplate.disc := 2;
     FormatTemplate.bpm := 0; FormatTemplate.year := 0;
     FormatTemplate.lengthSeconds := 0; FormatTemplate.bitrate := 0;
     FormatTemplate.sampleRate := 0; FormatTemplate.artistInitial := "A" |}.

Definition tags_no_disc : FormatTemplate.MetadataRecord :=
  {| FormatTemplate.artist := "Artist"; FormatTemplate.album := "Album";
     FormatTemplate.albumArtist := ""; FormatTemplate.composer := "";
     FormatTemplate.title := "Title"; FormatTemplate.genre := "";
     FormatTemplate.comment := ""; FormatTemplate.extension := "mp3";
     FormatTemplate.track := 3; FormatTemplate.disc := 0;
     FormatTemplate.bpm := 0; FormatTemplate.year := 0;
     FormatTemplate.lengthSeconds := 0; FormatTemplate.bitrate := 0;
     FormatTemplate.sampleRate := 0; FormatTemplate.artistInitial := "A" |}.

Definition song_1 : Song :=
  {| filename := "/music/a.mp3"; filesize := 200; is_valid := true; song_tags := tags_1 |}.
Definition song_2 : Song :=
  {| filename := "file:///music/b.mp3"; filesize := 0; is_valid := true;
     song_tags := tags_no_disc |}.
Definition song_remote : Song :=
  {| filename := "http://radio/stream"; filesize := 50; is_valid := true;
     song_tags := tags_1 |}.
Definition song_unreadable : Song :=
  {| filename := "/music/notes.txt"; filesize := 10; is_valid := false;
     song_tags := tags_no_disc |}.

(** A library on disk, a device without a local root and a row that
    reports no capacity. *)
Definition row_library : DestinationRow :=
  {| row_text := "Library"; Role_Storage := Some {| LocalPath := "/home/music" |};
     Role_Capacity := 1000; Role_FreeSpace := 100 |}.
Definition row_device : DestinationRow :=
  {| row_text := "Phone"; Role_Storage := Some {| LocalPath := "" |};
     Role_Capacity := 1000; Role_FreeSpace := 500 |}.
Definition row_unbounded : DestinationRow :=
  {| row_text := "Share"; Role_Storage := Some {| LocalPath := "/mnt/share" |};
     Role_Capacity := 0; Role_FreeSpace := 100 |}.

Definition ui_0 : Ui_OrganiseDialog :=
  {| naming := kDefaultFormat; replace_ascii := false; ui_replace_spaces := false;
     ui_replace_the := false; overwrite := true; eject_after := false;
     eject_after_visible := true; aftercopying := 0;
     destination := {| model := [row_library; row_device; row_unbounded]; currentIndex := 0 |};
     free_space := {| bar_visible := false; free_bytes := 0; total_bytes := 0;
                      additional_bytes := 0 |};
     ok_enabled := false; preview := []; preview_group_visible := true;
     naming_group_visible := true |}.

Definition dialog_0 : OrganiseDialog :=
  {| ui_ := ui_0; task_manager_ := 0%nat; total_size_ := 200;
     filenames_ := ["/music/a.mp3"]; preview_songs_ := [song_1];
     format_ := {| format := ""; replace_non_ascii := false; replace_spaces := false;
                   replace_the := false |};
     accepted := false |}.

Definition on_row (i : Z) (d : OrganiseDialog) : OrganiseDialog :=
  with_ui (ui_set_destination
             {| model := model (destination (ui_ d)); currentIndex := i |}) d.

(** A template without a tag, over a preview left by an earlier update. *)
Definition dialog_invalid : OrganiseDialog :=
  with_ui (ui_set_preview_display ["stale"] true false)
    (with_ui (ui_set_naming "music/file.mp3") dialog_0).

Definition fs_0 : FileSystem :=
  <[ "/music" :=
       FsDir [ Entry "." true (FsDir [Entry "a.mp3" true (FsFile song_1)]);
               Entry ".." true (FsDir [Entry "up.mp3" true (FsFile song_remote)]);
               Entry ".cover.mp3" true (FsFile song_remote);
               Entry "a.mp3" true (FsFile song_1);
               Entry "notes.txt" true (FsFile song_unreadable);
               Entry "secret" false (FsDir [Entry "x.mp3" true (FsFile song_1)]);
               Entry "sub" true (FsDir [Entry "b.mp3" true (FsFile song_2)]) ] ]>
  (<[ "/music/a.mp3" := FsFile song_1 ]> ∅).

(** A directory that holds hidden entries only: a song and a directory
    with a song in it. *)
Definition listing_hidden : list DirEntry :=
  [ Entry ".cover.mp3" true (FsFile song_1);
    Entry ".git" true (FsDir [Entry "x.mp3" true (FsFile song_2)]) ].

Definition fs_hidden : FileSystem := <[ "/dotted" := FsDir listing_hidden ]> ∅.

Definition world_0 : World := {| settings := ∅; started := [] |}.

Definition songs_0 : SongList := [song_1; song_2; song_remote; song_unreadable].

(** A directory of twelve songs. *)
Definition fs_many : FileSystem :=
  <[ "/album" :=
       FsDir (List.map (fun n => Entry (pretty n) true (FsFile song_1)) (seq 1 12)) ]> ∅.

(** Settings that hold a destination only, a list of URLs, and a run of
    the dialog. *)
Definition settings_phone : gmap string QVariant :=
  {[ settings_key "destination" := VString "Phone" ]}.

Definition urls_0 : list (@QUrl unix_qt) :=
  [ parse_url "file:///music/b.mp3"; parse_url "/music/a.mp3";
    parse_url "http://radio/stream" ].

Definition actions_0 : list Action :=
  [ EditNaming "%title"; ToggleReplaceAscii true; CallSetSongs fs_0 songs_0;
    ChooseDestination 2; CallSetCopy false ].

Definition listing_before : list DirEntry := [Entry "a.mp3" true (FsFile song_1)].
Definition listing_after : list DirEntry :=
  [Entry "sub" true (FsDir [Entry "b.mp3" true (FsFile song_2)])].

End Examples.

End Dialog.

(* ===================================================================== *)
(** * Properties of the format template engine *)
(* ===================================================================== *)

Module FormatTemplateProofs.

Import FormatTemplate.

(** ** Strings *)

Lemma is_empty_true (s : string) : is_empty s = true <-> s = "".
Proof. destruct s; simpl; split; intros H; congruence. Qed.

Lemma append_cons (c : ascii) (s1 s2 : string) :
  String c s1 +:+ s2 = String c (s1 +:+ s2).
Proof. reflexivity. Qed.

Lemma append_assoc (s1 s2 s3 : string) : (s1 +:+ s2) +:+ s3 = s1 +:+ (s2 +:+ s3).
Proof.
  induction s1 as [| c s1 IH]; [reflexivity |].
  rewrite !append_cons. now rewrite IH.
Qed.

Lemma append_nil_r (s : string) : s +:+ "" = s.
Proof.
  induction s as [| c s IH]; [reflexivity |].
  rewrite append_cons. now rewrite IH.
Qed.

Lemma concat_strings_app (l1 l2 : list string) :
  concat_strings (l1 ++ l2) = concat_strings l1 +:+ concat_strings l2.
Proof.
  unfold concat_strings.
  induction l1 as [| s l1 IH]; simpl; [reflexivity |].
  rewrite IH. symmetry. apply append_assoc.
Qed.

Lemma has_char_app (c : ascii) (s1 s2 : string) :
  has_char c (s1 +:+ s2) = has_char c s1 || has_char c s2.
Proof.
  induction s1 as [| c1 s1 IH]; simpl; [reflexivity |].
  rewrite IH. apply orb_assoc.
Qed.

(** A string that holds a word holds the first character of the word. *)
Lemma contains_has_char (c : ascii) (needle hay : string) :
  contains (String c needle) hay = true -> has_char c hay = true.
Proof.
  induction hay as [| h hay IH]; simpl; [discriminate |].
  intros H. apply orb_true_iff in H. destruct H as [H | H].
  - destruct (ascii_dec c h) as [-> | _]; [| discriminate H].
    rewrite Ascii.eqb_refl. reflexivity.
  - rewrite IH by exact H. apply orb_true_r.
Qed.

(** ** Numbers *)

Lemma pretty_N_go_nonempty (x : N) :
  forall s : string, s <> "" -> pretty_N_go x s <> "".
Proof.
  induction (N.lt_wf_0 x) as [x _ IH]; intros s Hs.
  destruct (N.eq_dec x 0%N) as [-> | Hx].
  - rewrite pretty_N_go_0. exact Hs.
  - rewrite pretty_N_go_step by lia.
    apply IH; [apply N.div_lt; lia | discriminate].
Qed.

Lemma render_number_empty (n : N) : render_number n = "" <-> n = 0%N.
Proof.
  unfold render_number.
  destruct (N.eqb_spec n 0%N) as [-> | Hn]; [tauto |].
  split; [| intros H; contradiction].
  unfold pretty, pretty_N. destruct (decide (n = 0%N)) as [H | _]; [contradiction |].
  rewrite pretty_N_go_step by lia.
  intros H. exfalso. revert H. apply pretty_N_go_nonempty. discriminate.
Qed.

(** ** Conditional blocks *)

Lemma block_kept (r : MetadataRecord) (body : list Segment) :
  forallb (segment_present r) body = true ->
  render r (Block body) = concat_strings (List.map (render r) body).
Proof. intros H. simpl. rewrite H. reflexivity. Qed.

Lemma block_dropped (r : MetadataRecord) (body : list Segment) (t : Tag) :
  In (TagRef t) body -> resolve t r = "" -> render r (Block body) = "".
Proof.
  intros Hin He. simpl.
  destruct (forallb (segment_present r) body) eqn:E; [| reflexivity].
  rewrite forallb_forall in E. specialize (E _ Hin).
  simpl in E. rewrite He in E. discriminate E.
Qed.

Lemma evaluate_app (r : MetadataRecord) (t1 t2 : FormatTemplate) :
  evaluate (t1 ++ t2) r = evaluate t1 r +:+ evaluate t2 r.
Proof. unfold evaluate. rewrite List.map_app. apply concat_strings_app. Qed.

(** C2.  A conditional block is emitted only when every tag reference
    standing in it resolves to a non-empty value, and then as its literal
    text and resolved tags in order; when a tag in it is absent the block
    emits nothing, literal text included, and the path is the one of the
    template without the block.  For [%album{ (Disc %disc)}] the output is
    the album followed by [ (Disc 2)] when the disc is 2, and the album
    alone when the disc is absent; for
    [%artist/%album{ (Disc %disc)}/%title] with the disc absent it is
    [artist/album/title], which holds no [(Disc] unless a field brings an
    opening parenthesis, and with disc 2 it is
    [artist/album (Disc 2)/title]. *)
Theorem conditional_block_elision (r : MetadataRecord) :
  (forall body : list Segment,
     (forallb (segment_present r) body = true ->
      render r (Block body) = concat_strings (List.map (render r) body))
     /\ (render r (Block body) <> "" ->
         forall t : Tag, In (TagRef t) body -> resolve t r <> "")
     /\ (forall t : Tag,
           In (TagRef t) body -> resolve t r = "" ->
           render r (Block body) = ""
           /\ forall before after : FormatTemplate,
                evaluate (before ++ Block body :: after) r
                = evaluate (before ++ after) r))
  /\ Parse "%album{ (Disc %disc)}" = inr album_disc_template
  /\ Parse "%artist/%album{ (Disc %disc)}/%title" = inr artist_album_title_template
  /\ (disc r = 2%N ->
      evaluate album_disc_template r = album r +:+ " (Disc 2)"
      /\ evaluate artist_album_title_template r
         = artist r +:+ "/" +:+ album r +:+ " (Disc 2)/" +:+ title r)
  /\ (disc r <> 0%N ->
      render r (Block [Literal " (Disc "; TagRef TagDisc; Literal ")"])
      = " (Disc " +:+ pretty (disc r) +:+ ")")
  /\ (disc r = 0%N ->
      evaluate album_disc_template r = album r
      /\ evaluate artist_album_title_template r
         = artist r +:+ "/" +:+ album r +:+ "/" +:+ title r
      /\ (has_char "(" (artist r) = false ->
          has_char "(" (album r) = false ->
          has_char "(" (title r) = false ->
          contains "(Disc" (evaluate artist_album_title_template r) = false)).
Proof.
  split; [| split; [reflexivity | split; [reflexivity |]]].
  - intros body. split; [apply block_kept |]. split.
    + intros Hne t Hin He. apply Hne. eapply block_dropped; eassumption.
    + intros t Hin He.
      assert (render r (Block body) = "") as Hb by (eapply block_dropped; eassumption).
      split; [exact Hb |]. intros before after.
      change (Block body :: after) with ([Block body] ++ after).
      rewrite !evaluate_app. unfold evaluate at 2.
      unfold List.map, concat_strings, foldr. rewrite Hb. reflexivity.
  - split; [| split].
    + intros Hd. unfold evaluate, album_disc_template, artist_album_title_template.
      simpl. unfold render_number. rewrite Hd. simpl.
      split; [now rewrite append_nil_r |].
      rewrite !append_assoc. simpl. now rewrite append_nil_r.
    + intros Hd. simpl.
      destruct (is_empty (render_number (disc r))) eqn:E.
      * apply is_empty_true, render_number_empty in E. contradiction.
      * simpl. unfold render_number.
        destruct (N.eqb_spec (disc r) 0%N) as [H | _]; [contradiction |].
        rewrite append_nil_r. reflexivity.
    + intros Hd.
      assert (evaluate artist_album_title_template r
              = artist r +:+ "/" +:+ album r +:+ "/" +:+ title r) as He.
      { unfold evaluate, artist_album_title_template. simpl.
        unfold render_number. rewrite Hd. simpl.
        now rewrite append_nil_r. }
      split; [| split; [exact He |]].
      * unfold evaluate, album_disc_template. simpl.
        unfold render_number. rewrite Hd. simpl.
        now rewrite append_nil_r.
      * intros Ha Hb Ht. rewrite He.
        destruct (contains "(Disc" _) eqn:E; [| reflexivity].
        apply contains_has_char in E.
        rewrite !has_char_app, Ha, Hb, Ht in E. discriminate E.
Qed.

(** The default template of the dialog is valid, a template without a tag
    is not. *)
Example IsValid_default_template :
  IsValid Dialog.kDefaultFormat = true /\ IsValid "music/file.mp3" = false.
Proof. split; reflexivity. Qed.

Lemma conditional_block_elision_witness :
  evaluate artist_album_title_template Dialog.Examples.tags_no_disc = "Artist/Album/Title"
  /\ contains "(Disc" (evaluate artist_album_title_template Dialog.Examples.tags_no_disc) = false
  /\ evaluate artist_album_title_template Dialog.Examples.tags_1
     = "Artist/Album (Disc 2)/Title".
Proof.
  destruct (conditional_block_elision Dialog.Examples.tags_no_disc)
    as (_ & _ & _ & _ & _ & H0).
  destruct (H0 eq_refl) as (_ & He & Hc).
  destruct (conditional_block_elision Dialog.Examples.tags_1)
    as (_ & _ & _ & H2 & _).
  destruct (H2 eq_refl) as (_ & He2).
  split; [exact He |]. split; [| exact He2].
  apply Hc; reflexivity.
Defined.

End FormatTemplateProofs.

(* ===================================================================== *)
(** * Properties of the dialog *)
(* ===================================================================== *)

Module DialogProofs.

Import Dialog.

Local Open Scope Z_scope.

Section UpdatePreviewsFacts.

Context `{Qt : QtCore} `{Engine : FormatEngine}.

(** [UpdatePreviews] rebuilds the format object from the widgets. *)
Lemma UpdatePreviews_format (d : OrganiseDialog) :
  format_ (UpdatePreviews d) = ui_format (ui_ d).
Proof.
  unfold UpdatePreviews; cbv zeta.
  destruct (negb (IsValid _)); reflexivity.
Qed.

(** The widgets the user writes to are not written by [UpdatePreviews]. *)
Lemma UpdatePreviews_inputs (d : OrganiseDialog) :
  inputs (ui_ (UpdatePreviews d)) = inputs (ui_ d).
Proof.
  unfold UpdatePreviews; cbv zeta.
  destruct (negb (IsValid _)); reflexivity.
Qed.

Lemma UpdatePreviews_members (d : OrganiseDialog) :
  filenames_ (UpdatePreviews d) = filenames_ d
  /\ total_size_ (UpdatePreviews d) = total_size_ d
  /\ preview_songs_ (UpdatePreviews d) = preview_songs_ d
  /\ task_manager_ (UpdatePreviews d) = task_manager_ d.
Proof.
  unfold UpdatePreviews; cbv zeta.
  destruct (negb (IsValid _)); repeat split.
Qed.

Lemma UpdatePreviews_ok (d : OrganiseDialog) :
  ok_enabled (ui_ (UpdatePreviews d))
  = ok_value (IsValid (ui_format (ui_ d))) (selected_storage d) (filenames_ d)
      (to_quint64 (reported_capacity d)) (to_quint64 (reported_free d))
      (total_size_ d).
Proof.
  unfold UpdatePreviews; cbv zeta.
  destruct (negb (IsValid _)); reflexivity.
Qed.

Lemma ok_value_true (valid : bool) (storage : option MusicStorage)
    (files : list string) (capacity free total : Z) :
  ok_value valid storage files capacity free total = true
  <-> valid = true /\ is_Some storage /\ files <> []
      /\ ~ (capacity <> 0 /\ free < total).
Proof.
  unfold ok_value.
  destruct (Z.eqb_spec capacity 0) as [Hc | Hc];
    destruct (Z.ltb_spec free total) as [Hf | Hf]; simpl;
    destruct valid, storage as [s |], files as [| f files]; simpl;
    split; intros H;
    try discriminate H; try reflexivity;
    try (destruct H as (Hv & Hs & Hn & Hx);
         first [ discriminate Hv
               | now destruct Hs
               | now destruct Hn
               | exfalso; apply Hx; split; assumption ]);
    repeat split; eauto; try discriminate; intros [? ?]; lia.
Qed.

(** C1.  After [UpdatePreviews] the Ok button is enabled exactly when the
    format built from the widgets is valid, the selected row carries a
    storage target, the list of source files is not empty, and it is not
    the case that the capacity read from the row is non-zero while the
    total size exceeds the free space read from it.  In particular the
    button is disabled while the template is invalid, and while the total
    size exceeds the free space of a target that reports a capacity. *)
Theorem UpdatePreviews_ok_enabled_iff (d : OrganiseDialog) :
  format_ (UpdatePreviews d) = ui_format (ui_ d)
  /\ (ok_enabled (ui_ (UpdatePreviews d)) = true
      <-> IsValid (ui_format (ui_ d)) = true
          /\ is_Some (selected_storage d)
          /\ filenames_ d <> []
          /\ ~ (to_quint64 (reported_capacity d) <> 0
                /\ to_quint64 (reported_free d) < total_size_ d))
  /\ (IsValid (ui_format (ui_ d)) = false ->
      ok_enabled (ui_ (UpdatePreviews d)) = false)
  /\ (to_quint64 (reported_capacity d) <> 0 ->
      to_quint64 (reported_free d) < total_size_ d ->
      ok_enabled (ui_ (UpdatePreviews d)) = false).
Proof.
  split; [apply UpdatePreviews_format |].
  rewrite UpdatePreviews_ok.
  split; [apply ok_value_true |].
  split.
  - intros Hv. apply not_true_is_false. intros H.
    apply ok_value_true in H. destruct H as (H & _). congruence.
  - intros Hc Hf. apply not_true_is_false. intros H.
    apply ok_value_true in H. destruct H as (_ & _ & _ & H).
    apply H. split; assumption.
Qed.

Lemma reported_zero_quint64 (z : Z) : z = 0 -> to_quint64 z = 0.
Proof. intros ->. reflexivity. Qed.

(** C4.  When the capacity read from the selected row is 0 the free space
    comparison is not made: the Ok button is enabled exactly when the
    template is valid, a storage target is selected and the file list is
    not empty, whatever the total size and the free space are; replacing
    the total size by any other leaves the button as it is; and the free
    space bar is hidden. *)
Theorem capacity_zero_skips_space_check (d : OrganiseDialog) :
  reported_capacity d = 0 ->
  (ok_enabled (ui_ (UpdatePreviews d)) = true
   <-> IsValid (ui_format (ui_ d)) = true
       /\ is_Some (selected_storage d)
       /\ filenames_ d <> [])
  /\ (forall total_size : Z,
        ok_enabled
          (ui_ (UpdatePreviews
                  (with_filenames (filenames_ d) total_size (preview_songs_ d) d)))
        = ok_enabled (ui_ (UpdatePreviews d)))
  /\ bar_visible (free_space (ui_ (UpdatePreviews d))) = false.
Proof.
  intros Hcap. split; [| split].
  - rewrite UpdatePreviews_ok, ok_value_true.
    rewrite (reported_zero_quint64 _ Hcap).
    split.
    + intros (Hv & Hs & Hn & _). auto.
    + intros (Hv & Hs & Hn). repeat split; auto. intros [H _]. now apply H.
  - intros total_size. rewrite !UpdatePreviews_ok.
    unfold reported_capacity, reported_free, selected_storage in *.
    simpl. rewrite (reported_zero_quint64 _ Hcap).
    unfold ok_value. reflexivity.
  - unfold UpdatePreviews; cbv zeta.
    fold (reported_capacity d). rewrite (reported_zero_quint64 _ Hcap).
    destruct (negb (IsValid _)); reflexivity.
Qed.

(** C10.  When the format built from the widgets is invalid,
    [UpdatePreviews] disables the Ok button and leaves the preview list
    and the visibility of the preview group and of the naming group as
    they were. *)
Theorem UpdatePreviews_invalid_frame (d : OrganiseDialog) :
  IsValid (ui_format (ui_ d)) = false ->
  ok_enabled (ui_ (UpdatePreviews d)) = false
  /\ preview (ui_ (UpdatePreviews d)) = preview (ui_ d)
  /\ preview_group_visible (ui_ (UpdatePreviews d)) = preview_group_visible (ui_ d)
  /\ naming_group_visible (ui_ (UpdatePreviews d)) = naming_group_visible (ui_ d).
Proof.
  intros Hv. split.
  - rewrite UpdatePreviews_ok, Hv. unfold ok_value. simpl.
    destruct (negb _ && _); reflexivity.
  - unfold UpdatePreviews; cbv zeta.
    destruct (negb (IsValid _)) eqn:E; [repeat split |].
    assert (negb (IsValid (ui_format (ui_ d))) = false) as E' by exact E.
    rewrite Hv in E'. discriminate E'.
Qed.

(** C3, as the code has it.  For a storage target without a local root
    and a valid template, [UpdatePreviews] computes no destination path:
    the preview list is left empty and the preview group and the naming
    group are hidden.  The Ok button is decided as for any other target,
    and an accepted dialog hands the target itself to the batch it
    starts. *)
Theorem no_local_root_hides_preview (d : OrganiseDialog) (s : MusicStorage) :
  selected_storage d = Some s ->
  LocalPath s = "" ->
  IsValid (ui_format (ui_ d)) = true ->
  preview (ui_ (UpdatePreviews d)) = []
  /\ preview_group_visible (ui_ (UpdatePreviews d)) = false
  /\ naming_group_visible (ui_ (UpdatePreviews d)) = false
  /\ (ok_enabled (ui_ (UpdatePreviews d)) = true
      <-> filenames_ d <> []
          /\ ~ (to_quint64 (reported_capacity d) <> 0
                /\ to_quint64 (reported_free d) < total_size_ d))
  /\ (forall w : World,
        exists o : Organise,
          started (fst (accept w (UpdatePreviews d))) = started w ++ [o]
          /\ o_destination o = Some s).
Proof.
  intros Hs Hl Hv.
  assert (preview (ui_ (UpdatePreviews d)) = []
          /\ preview_group_visible (ui_ (UpdatePreviews d)) = false
          /\ naming_group_visible (ui_ (UpdatePreviews d)) = false) as Hp.
  { unfold UpdatePreviews; cbv zeta.
    destruct (negb (IsValid _)) eqn:E.
    - assert (negb (IsValid (ui_format (ui_ d))) = true) as E' by exact E.
      rewrite Hv in E'. discriminate E'.
    - fold (selected_storage d). rewrite Hs. simpl. rewrite Hl. simpl.
      repeat split. }
  destruct Hp as (Hp1 & Hp2 & Hp3).
  repeat split; try assumption.
  - rewrite UpdatePreviews_ok in H. apply ok_value_true in H. tauto.
  - rewrite UpdatePreviews_ok in H. apply ok_value_true in H. tauto.
  - intros (Hn & Hx). rewrite UpdatePreviews_ok. apply ok_value_true.
    rewrite Hs. repeat split; eauto.
  - intros w. eexists. split; [reflexivity |].
    simpl. pose proof (UpdatePreviews_inputs d) as Hi.
    unfold inputs in Hi. injection Hi as _ _ _ _ _ _ _ Hd.
    rewrite Hd. exact Hs.
Qed.

End UpdatePreviewsFacts.

(** ** The setters, [Reset] and [accept] *)

Section SetterFacts.

Context `{Qt : QtCore} `{Engine : FormatEngine}.

Lemma ui_format_inputs (u u' : Ui_OrganiseDialog) :
  inputs u = inputs u' -> ui_format u = ui_format u'.
Proof.
  unfold inputs, ui_format. intros H.
  injection H as Hn Ha Hs Ht _ _ _ _. now rewrite Hn, Ha, Hs, Ht.
Qed.

Lemma UpdatePreviews_current (d : OrganiseDialog) : format_current (UpdatePreviews d).
Proof.
  unfold format_current. rewrite UpdatePreviews_format.
  symmetry. apply ui_format_inputs, UpdatePreviews_inputs.
Qed.

Create HintDb dialog.
Local Hint Resolve UpdatePreviews_current : dialog.

Lemma naming_setPlainText_inputs (text : string) (d : OrganiseDialog) :
  inputs (ui_ (naming_setPlainText text d))
  = (text, replace_ascii (ui_ d), ui_replace_spaces (ui_ d), ui_replace_the (ui_ d),
     overwrite (ui_ d), eject_after (ui_ d), aftercopying (ui_ d),
     destination (ui_ d)).
Proof. unfold naming_setPlainText. now rewrite UpdatePreviews_inputs. Qed.

Lemma replace_ascii_setChecked_inputs (b : bool) (d : OrganiseDialog) :
  inputs (ui_ (replace_ascii_setChecked b d))
  = (naming (ui_ d), b, ui_replace_spaces (ui_ d), ui_replace_the (ui_ d),
     overwrite (ui_ d), eject_after (ui_ d), aftercopying (ui_ d),
     destination (ui_ d)).
Proof.
  unfold replace_ascii_setChecked.
  destruct (Bool.eqb_spec b (replace_ascii (ui_ d))) as [-> | _];
    [reflexivity | now rewrite UpdatePreviews_inputs].
Qed.

Lemma replace_spaces_setChecked_inputs (b : bool) (d : OrganiseDialog) :
  inputs (ui_ (replace_spaces_setChecked b d))
  = (naming (ui_ d), replace_ascii (ui_ d), b, ui_replace_the (ui_ d),
     overwrite (ui_ d), eject_after (ui_ d), aftercopying (ui_ d),
     destination (ui_ d)).
Proof.
  unfold replace_spaces_setChecked.
  destruct (Bool.eqb_spec b (ui_replace_spaces (ui_ d))) as [-> | _];
    [reflexivity | now rewrite UpdatePreviews_inputs].
Qed.

Lemma replace_the_setChecked_inputs (b : bool) (d : OrganiseDialog) :
  inputs (ui_ (replace_the_setChecked b d))
  = (naming (ui_ d), replace_ascii (ui_ d), ui_replace_spaces (ui_ d), b,
     overwrite (ui_ d), eject_after (ui_ d), aftercopying (ui_ d),
     destination (ui_ d)).
Proof.
  unfold replace_the_setChecked.
  destruct (Bool.eqb_spec b (ui_replace_the (ui_ d))) as [-> | _];
    [reflexivity | now rewrite UpdatePreviews_inputs].
Qed.

Lemma Reset_inputs (d : OrganiseDialog) :
  inputs (ui_ (Reset d))
  = (kDefaultFormat, false, false, false, true, false, aftercopying (ui_ d),
     destination (ui_ d)).
Proof.
  unfold Reset, eject_after_setChecked, overwrite_setChecked.
  pose proof (naming_setPlainText_inputs kDefaultFormat d) as H1.
  pose proof (replace_ascii_setChecked_inputs false
                (naming_setPlainText kDefaultFormat d)) as H2.
  pose proof (replace_spaces_setChecked_inputs false
                (replace_ascii_setChecked false
                   (naming_setPlainText kDefaultFormat d))) as H3.
  pose proof (replace_the_setChecked_inputs false
                (replace_spaces_setChecked false
                   (replace_ascii_setChecked false
                      (naming_setPlainText kDefaultFormat d)))) as H4.
  unfold inputs in *.
  injection H1 as H1n H1a H1s H1t H1o H1e H1c H1d.
  injection H2 as H2n H2a H2s H2t H2o H2e H2c H2d.
  injection H3 as H3n H3a H3s H3t H3o H3e H3c H3d.
  injection H4 as H4n H4a H4s H4t H4o H4e H4c H4d.
  simpl. congruence.
Qed.

(** *** The format object stays current *)

Lemma replace_ascii_setChecked_current (b : bool) (d : OrganiseDialog) :
  format_current d -> format_current (replace_ascii_setChecked b d).
Proof.
  unfold replace_ascii_setChecked. destruct (Bool.eqb _ _); auto with dialog.
Qed.

Lemma replace_spaces_setChecked_current (b : bool) (d : OrganiseDialog) :
  format_current d -> format_current (replace_spaces_setChecked b d).
Proof.
  unfold replace_spaces_setChecked. destruct (Bool.eqb _ _); auto with dialog.
Qed.

Lemma replace_the_setChecked_current (b : bool) (d : OrganiseDialog) :
  format_current d -> format_current (replace_the_setChecked b d).
Proof.
  unfold replace_the_setChecked. destruct (Bool.eqb _ _); auto with dialog.
Qed.

Lemma destination_setCurrentIndex_current (i : Z) (d : OrganiseDialog) :
  format_current d -> format_current (destination_setCurrentIndex i d).
Proof.
  unfold destination_setCurrentIndex; cbv zeta.
  destruct (_ =? _); auto with dialog.
Qed.

Lemma SetFilenames_current (fs : FileSystem) (files : list string) (total : Z)
    (d : OrganiseDialog) :
  format_current (SetFilenames fs files total d).
Proof. unfold SetFilenames; cbv zeta. auto with dialog. Qed.

Lemma Reset_current (d : OrganiseDialog) : format_current (Reset d).
Proof.
  unfold Reset, eject_after_setChecked, overwrite_setChecked.
  cut (format_current
         (replace_the_setChecked false
            (replace_spaces_setChecked false
               (replace_ascii_setChecked false
                  (naming_setPlainText kDefaultFormat d))))).
  { unfold format_current. simpl. auto. }
  apply replace_the_setChecked_current, replace_spaces_setChecked_current,
    replace_ascii_setChecked_current.
  unfold naming_setPlainText. auto with dialog.
Qed.

Lemma showEvent_current (s : gmap string QVariant) (d : OrganiseDialog) :
  format_current (showEvent s d).
Proof.
  unfold showEvent, eject_after_setChecked, overwrite_setChecked; cbv zeta.
  match goal with
  | |- format_current (if _ then destination_setCurrentIndex _ ?x else ?x) =>
      assert (format_current x) as Hx
  end.
  { match goal with
    | |- format_current (with_ui _ (with_ui _ ?y)) =>
        cut (format_current y); [unfold format_current; simpl; auto |]
    end.
    apply replace_the_setChecked_current, replace_spaces_setChecked_current,
      replace_ascii_setChecked_current.
    unfold naming_setPlainText. auto with dialog. }
  destruct (_ && _); [apply destination_setCurrentIndex_current |]; exact Hx.
Qed.

Lemma perform_current (a : Action) (d : OrganiseDialog) :
  format_current d -> format_current (perform a d).
Proof.
  intros Hd. destruct a; simpl.
  - unfold naming_setPlainText. auto with dialog.
  - now apply replace_ascii_setChecked_current.
  - now apply replace_spaces_setChecked_current.
  - now apply replace_the_setChecked_current.
  - exact Hd.
  - exact Hd.
  - exact Hd.
  - now apply destination_setCurrentIndex_current.
  - unfold SetDestinationModel, destination_setModel; cbv zeta.
    destruct (_ =? _).
    + exact Hd.
    + pose proof (UpdatePreviews_current
                    (with_ui
                       (ui_set_destination
                          {| model := rows;
                             currentIndex := match rows with [] => -1 | _ => 0 end |})
                       d)) as H.
      exact H.
  - unfold SetSongs. destruct (foldl _ _ _). apply SetFilenames_current.
  - apply SetFilenames_current.
  - apply SetFilenames_current.
  - exact Hd.
  - unfold InsertTag, naming_setPlainText; cbv zeta. auto with dialog.
  - apply Reset_current.
  - apply showEvent_current.
Qed.

Lemma perform_all_current (actions : list Action) (d : OrganiseDialog) :
  format_current d -> format_current (perform_all actions d).
Proof.
  unfold perform_all. revert d.
  induction actions as [| a actions IH]; intros d Hd; simpl.
  - exact Hd.
  - apply IH, perform_current, Hd.
Qed.

(** C6.  The default naming template is the string below, and [Reset]
    leaves it in the naming field with the three replace boxes unchecked,
    the overwrite box checked and the eject box unchecked; the format
    object holds the same template and flags. *)
Theorem Reset_restores_defaults :
  kDefaultFormat = "%artist/%album{ (Disc %disc)}/{%track - }%title.%extension"
  /\ forall d : OrganiseDialog,
       naming (ui_ (Reset d)) = kDefaultFormat
       /\ replace_ascii (ui_ (Reset d)) = false
       /\ ui_replace_spaces (ui_ (Reset d)) = false
       /\ ui_replace_the (ui_ (Reset d)) = false
       /\ overwrite (ui_ (Reset d)) = true
       /\ eject_after (ui_ (Reset d)) = false
       /\ format_ (Reset d)
          = {| format := kDefaultFormat; replace_non_ascii := false;
               replace_spaces := false; replace_the := false |}.
Proof.
  split; [reflexivity |]. intros d.
  pose proof (Reset_inputs d) as Hi.
  pose proof (Reset_current d) as Hc.
  unfold format_current, ui_format in Hc. rewrite Hc.
  unfold inputs in Hi.
  assert (naming (ui_ (Reset d)) = kDefaultFormat) as Hn by congruence.
  assert (replace_ascii (ui_ (Reset d)) = false) as Ha by congruence.
  assert (ui_replace_spaces (ui_ (Reset d)) = false) as Hs by congruence.
  assert (ui_replace_the (ui_ (Reset d)) = false) as Ht by congruence.
  assert (overwrite (ui_ (Reset d)) = true) as Ho by congruence.
  assert (eject_after (ui_ (Reset d)) = false) as He by congruence.
  rewrite Hn, Ha, Hs, Ht, Ho, He. repeat split.
Qed.

(** C8.  [accept] starts exactly one batch, built from the members of the
    dialog at that moment: the task manager, the storage of the selected
    row, the format object, copy exactly when the after-copying selector
    is at index 0, the overwrite box, the stored file names and the eject
    box.  In every dialog that has been shown, whatever happened to it
    since, the format object is the text of the naming field with the
    three replace boxes. *)
Theorem accept_starts_one_batch :
  (forall (w : World) (d : OrganiseDialog),
     started (fst (accept w d))
     = started w
       ++ [ {| o_task_manager := task_manager_ d;
               o_destination := selected_storage d;
               o_format := format_ d;
               o_copy := (aftercopying (ui_ d) =? 0);
               o_overwrite := overwrite (ui_ d);
               o_files := filenames_ d;
               o_eject_after := eject_after (ui_ d) |} ]
     /\ ((aftercopying (ui_ d) =? 0) = true <-> aftercopying (ui_ d) = 0))
  /\ (forall (s : gmap string QVariant) (d0 : OrganiseDialog) (actions : list Action),
        format_ (perform_all actions (showEvent s d0))
        = {| format := naming (ui_ (perform_all actions (showEvent s d0)));
             replace_non_ascii := replace_ascii (ui_ (perform_all actions (showEvent s d0)));
             replace_spaces := ui_replace_spaces (ui_ (perform_all actions (showEvent s d0)));
             replace_the := ui_replace_the (ui_ (perform_all actions (showEvent s d0))) |}).
Proof.
  split.
  - intros w d. split; [reflexivity | apply Z.eqb_eq].
  - intros s d0 actions.
    apply (perform_all_current actions (showEvent s d0)), showEvent_current.
Qed.

End SetterFacts.

(** ** The file list: [SetFilenames] and [SetSongs] *)

Section FileListFacts.

Context `{Qt : QtCore} `{Engine : FormatEngine}.

Lemma SetFilenames_members (fs : FileSystem) (files : list string) (total : Z)
    (d : OrganiseDialog) :
  filenames_ (SetFilenames fs files total d) = files
  /\ total_size_ (SetFilenames fs files total d) = total.
Proof.
  unfold SetFilenames; cbv zeta.
  destruct (UpdatePreviews_members
              (with_ui
                 (fun u => ui_set_free_space (set_additional_bytes total (free_space u)) u)
                 (with_filenames files total
                    (foldl (fun songs f => LoadPreviewSongs fs f songs) []
                       (take (Z.to_nat (Z.min (count files) kNumberOfPreviews)) files))
                    d))) as (Hf & Ht & _).
  rewrite Hf, Ht. split; reflexivity.
Qed.

Lemma SetSongs_step_local (acc : Z * list string) (song : Song) :
  has_local_url song = true ->
  SetSongs_step acc song
  = (if 0 <? filesize song then to_quint64 (fst acc + filesize song) else fst acc,
     snd acc ++ [local_file song]).
Proof.
  unfold has_local_url, SetSongs_step, local_file; cbv zeta.
  destruct (isEmpty _); simpl; [discriminate |].
  destruct (FormatTemplate.is_empty _); simpl; [reflexivity |].
  intros ->. reflexivity.
Qed.

Lemma SetSongs_step_remote (acc : Z * list string) (song : Song) :
  has_local_url song = false -> SetSongs_step acc song = acc.
Proof.
  unfold has_local_url, SetSongs_step; cbv zeta.
  destruct (isEmpty _); simpl; [reflexivity |].
  destruct (FormatTemplate.is_empty _); simpl; [discriminate |].
  intros ->. reflexivity.
Qed.

Lemma sum_sizes_counted_nonneg (songs : SongList) :
  0 <= sum_sizes (List.filter counted songs).
Proof.
  induction songs as [| song songs IH]; simpl; [lia |].
  destruct (counted song) eqn:E; simpl; [| exact IH].
  unfold counted in E. apply andb_true_iff in E. destruct E as [_ E].
  apply Z.ltb_lt in E. lia.
Qed.

Lemma SetSongs_loop (songs : SongList) (total : Z) (files : list string) :
  0 <= total < 2 ^ 64 ->
  foldl SetSongs_step (total, files) songs
  = ((total + sum_sizes (List.filter counted songs)) mod 2 ^ 64,
     files ++ List.map local_file (List.filter has_local_url songs)).
Proof.
  revert total files.
  induction songs as [| song songs IH]; intros total files Ht; simpl.
  - rewrite Z.add_0_r, app_nil_r, Z.mod_small by lia. reflexivity.
  - unfold counted at 1. destruct (has_local_url song) eqn:El; simpl.
    + rewrite SetSongs_step_local by exact El. simpl.
      destruct (0 <? filesize song) eqn:Es; simpl.
      * rewrite IH by (unfold to_quint64; apply Z.mod_pos_bound; lia).
        unfold to_quint64. rewrite Zplus_mod_idemp_l, <- app_assoc.
        simpl. f_equal. f_equal. lia.
      * rewrite IH by exact Ht. rewrite <- app_assoc. reflexivity.
    + rewrite SetSongs_step_remote by exact El. apply IH, Ht.
Qed.

Lemma sum_sizes_counted_bound (songs : SongList) (bound : Z) :
  0 <= bound ->
  Forall (fun song => filesize song <= bound) songs ->
  sum_sizes (List.filter counted songs) <= count songs * bound.
Proof.
  intros Hb Hall. unfold count.
  induction Hall as [| song songs Hs Hall IH]; simpl length; simpl List.filter.
  - simpl. lia.
  - destruct (counted song); simpl sum_sizes; nia.
Qed.

(** C5.  [SetSongs] records as total size the sum, kept in 64 bits, of the
    sizes of exactly the songs that have a local URL and a strictly
    positive size, and as source files the local-file forms of the songs
    with a local URL, in the order of the list.  A song list has at most
    2^31 - 1 entries and a size is an [int]; the 64 bits then hold the sum
    itself. *)
Theorem SetSongs_total_and_filenames (fs : FileSystem) (songs : SongList)
    (d : OrganiseDialog) :
  total_size_ (SetSongs fs songs d)
  = sum_sizes (List.filter counted songs) mod 2 ^ 64
  /\ filenames_ (SetSongs fs songs d)
     = List.map local_file (List.filter has_local_url songs)
  /\ (count songs <= 2 ^ 31 - 1 ->
      Forall (fun song => filesize song <= 2 ^ 31 - 1) songs ->
      total_size_ (SetSongs fs songs d) = sum_sizes (List.filter counted songs)).
Proof.
  assert (total_size_ (SetSongs fs songs d)
          = sum_sizes (List.filter counted songs) mod 2 ^ 64
          /\ filenames_ (SetSongs fs songs d)
             = List.map local_file (List.filter has_local_url songs)) as [Ht Hf].
  { unfold SetSongs. rewrite SetSongs_loop by lia. simpl.
    destruct (SetFilenames_members fs
                (List.map local_file (List.filter has_local_url songs))
                (sum_sizes (List.filter counted songs) mod 2 ^ 64) d) as [H1 H2].
    split; assumption. }
  split; [exact Ht |]. split; [exact Hf |].
  intros Hn Hall. rewrite Ht. apply Z.mod_small.
  pose proof (sum_sizes_counted_nonneg songs).
  pose proof (sum_sizes_counted_bound songs (2 ^ 31 - 1) ltac:(lia) Hall).
  assert (0 <= count songs) by (unfold count; lia).
  nia.
Qed.

End FileListFacts.

(** ** The preview loader *)

Section PreviewFacts.

Context `{Qt : QtCore} `{Engine : FormatEngine}.

(** Induction on the tree under a name: a directory inherits the property
    from the nodes of its listing. *)
Lemma FsNode_tree_ind (P : FsNode -> Prop) :
  (forall song, P (FsFile song)) ->
  (forall listing, Forall (fun e => P (entry_node e)) listing -> P (FsDir listing)) ->
  forall node, P node.
Proof.
  intros Hfile Hdir.
  exact (fix go (node : FsNode) : P node :=
           match node with
           | FsFile song => Hfile song
           | FsDir listing =>
               Hdir listing
                 ((fix all (l : list DirEntry)
                     : Forall (fun e => P (entry_node e)) l :=
                     match l with
                     | [] => @List.Forall_nil DirEntry _
                     | Entry name readable child :: l' =>
                         @List.Forall_cons DirEntry (fun e => P (entry_node e))
                           (Entry name readable child) l' (go child) (all l')
                     end) listing)
           end).
Qed.

(** The loop over the entries of a directory, and the songs it can find. *)
Lemma load_node_dir (listing : list DirEntry) (songs : SongList) :
  count songs < kNumberOfPreviews ->
  load_node (FsDir listing) songs
  = foldl (fun songs e => load_node (entry_node e) songs) songs (entryList listing).
Proof.
  intros Hc. simpl.
  destruct (Z.leb_spec kNumberOfPreviews (count songs)) as [H | _]; [lia |].
  clear Hc. revert songs.
  induction listing as [| [name readable child] rest IH]; intros songs; simpl.
  - reflexivity.
  - destruct (listed (Entry name readable child)); simpl; apply IH.
Qed.

Lemma songs_under_nil : songs_under (FsDir []) = [].
Proof. reflexivity. Qed.

Lemma songs_under_cons (e : DirEntry) (rest : list DirEntry) :
  songs_under (FsDir (e :: rest))
  = if listed e
    then songs_under (entry_node e) ++ songs_under (FsDir rest)
    else songs_under (FsDir rest).
Proof. destruct e. reflexivity. Qed.

Lemma songs_under_app (l1 l2 : list DirEntry) :
  songs_under (FsDir (l1 ++ l2)) = songs_under (FsDir l1) ++ songs_under (FsDir l2).
Proof.
  induction l1 as [| e l1 IH].
  - reflexivity.
  - change ((e :: l1) ++ l2) with (e :: (l1 ++ l2)).
    rewrite !songs_under_cons, IH.
    destruct (listed e); [now rewrite app_assoc | reflexivity].
Qed.

Lemma room_app (songs more : SongList) :
  room (songs ++ more) = (room songs - length more)%nat.
Proof. unfold room, count. rewrite length_app. lia. Qed.

Lemma take_room_app (n : nat) (a b : SongList) :
  take n a ++ take (n - length (take n a)) b = take n (a ++ b).
Proof.
  rewrite take_app, length_take. f_equal.
  destruct (Nat.le_gt_cases n (length a)) as [H | H].
  - replace (n - n `min` length a)%nat with 0%nat by lia.
    replace (n - length a)%nat with 0%nat by lia. reflexivity.
  - f_equal. lia.
Qed.

(** What the loader does, in one equation: it appends the valid songs under
    the node, in listing order, as long as there is room. *)
Lemma load_node_songs_under (node : FsNode) :
  forall songs : SongList,
    load_node node songs = songs ++ take (room songs) (songs_under node).
Proof.
  induction node as [song | listing IH] using FsNode_tree_ind; intros songs.
  - simpl. destruct (Z.leb_spec kNumberOfPreviews (count songs)) as [H | H].
    + replace (room songs) with 0%nat by (unfold room; lia).
      now rewrite take_0, app_nil_r.
    + destruct (is_valid song).
      * replace (room songs) with (S (room songs - 1)) by (unfold room; lia).
        simpl. now rewrite take_nil.
      * now rewrite take_nil, app_nil_r.
  - destruct (Z.leb_spec kNumberOfPreviews (count songs)) as [H | H].
    + replace (room songs) with 0%nat by (unfold room; lia).
      rewrite take_0, app_nil_r. simpl.
      destruct (Z.leb_spec kNumberOfPreviews (count songs)); [reflexivity | lia].
    + rewrite load_node_dir by exact H. clear H. revert songs.
      induction IH as [| e rest He Hrest IHrest]; intros songs.
      * simpl. now rewrite take_nil, app_nil_r.
      * rewrite songs_under_cons. unfold entryList in *. simpl List.filter.
        destruct (listed e); [| apply IHrest].
        simpl foldl. rewrite IHrest, He, room_app, <- app_assoc.
        f_equal. apply take_room_app.
Qed.

Lemma LoadPreviewSongs_songs_at (fs : FileSystem) (filename : string) (songs : SongList) :
  LoadPreviewSongs fs filename songs
  = songs ++ take (room songs) (songs_at fs filename).
Proof.
  unfold LoadPreviewSongs, songs_at.
  destruct (fs !! filename) as [node |].
  - apply load_node_songs_under.
  - now rewrite take_nil, app_nil_r.
Qed.

Lemma LoadPreviewSongs_count (fs : FileSystem) (filename : string) (songs : SongList) :
  count songs <= kNumberOfPreviews ->
  count (LoadPreviewSongs fs filename songs) <= kNumberOfPreviews.
Proof.
  intros H. rewrite LoadPreviewSongs_songs_at.
  unfold count in *. rewrite length_app, length_take. unfold room, count. lia.
Qed.

(** C7, as the code has it.  Loading the previews of a name appends, as
    long as fewer than ten songs are loaded, the valid songs found under
    it: a directory is not read as a song but replaced by the entries of
    its listing that are readable and not hidden, [.] and [..] left out,
    files and directories alike, each loaded in turn; a hidden entry adds
    nothing, whatever is in it; a file that is not a valid song adds
    nothing, and the entries after it are loaded as if it were not
    there. *)
Theorem LoadPreviewSongs_expands_and_skips (fs : FileSystem) (filename : string)
    (songs : SongList) :
  LoadPreviewSongs fs filename songs
  = songs ++ take (Z.to_nat (kNumberOfPreviews - count songs)) (songs_at fs filename)
  /\ (forall listing : list DirEntry,
        count songs < kNumberOfPreviews ->
        load_node (FsDir listing) songs
        = foldl (fun songs e => load_node (entry_node e) songs) songs
            (List.filter
               (fun e => entry_readable e
                         && negb (String.eqb (entry_name e) ".")
                         && negb (String.eqb (entry_name e) "..")
                         && negb (String.prefix "." (entry_name e)))
               listing))
  /\ (forall (before after : list DirEntry) (name : string) (readable : bool)
             (node : FsNode),
        String.prefix "." name = true ->
        load_node (FsDir (before ++ Entry name readable node :: after)) songs
        = load_node (FsDir (before ++ after)) songs)
  /\ (forall song : Song, is_valid song = false -> load_node (FsFile song) songs = songs)
  /\ (forall (before after : list DirEntry) (name : string) (readable : bool)
             (song : Song),
        is_valid song = false ->
        load_node (FsDir (before ++ Entry name readable (FsFile song) :: after)) songs
        = load_node (FsDir (before ++ after)) songs).
Proof.
  split; [apply LoadPreviewSongs_songs_at |].
  split; [intros listing H; now apply load_node_dir |].
  split; [| split].
  - intros before after name readable node Hh.
    rewrite !load_node_songs_under, !songs_under_app, songs_under_cons.
    unfold listed, hidden. simpl entry_name. rewrite Hh.
    now rewrite andb_false_r.
  - intros song Hs. simpl. rewrite Hs. now destruct (_ <=? _).
  - intros before after name readable song Hs.
    rewrite !load_node_songs_under, !songs_under_app, songs_under_cons.
    simpl entry_node. simpl (songs_under (FsFile song)). rewrite Hs.
    now destruct (listed _).
Qed.

Lemma SetFilenames_preview_count (fs : FileSystem) (files : list string) (total : Z)
    (d : OrganiseDialog) :
  count (preview_songs_ (SetFilenames fs files total d)) <= kNumberOfPreviews.
Proof.
  unfold SetFilenames; cbv zeta.
  match goal with
  | |- count (preview_songs_ (UpdatePreviews ?x)) <= _ =>
      destruct (UpdatePreviews_members x) as (_ & _ & Hp & _); rewrite Hp
  end.
  simpl.
  generalize (take (Z.to_nat (Z.min (count files) kNumberOfPreviews)) files).
  intros l.
  assert (forall acc : SongList,
            count acc <= kNumberOfPreviews ->
            count (foldl (fun songs f => LoadPreviewSongs fs f songs) acc l)
            <= kNumberOfPreviews) as H.
  { induction l as [| f l IH]; intros acc Hacc; simpl; [exact Hacc |].
    apply IH, LoadPreviewSongs_count, Hacc. }
  apply H. unfold count, kNumberOfPreviews. simpl. lia.
Qed.

(** *** The preview songs are written by [SetFilenames] only *)

Lemma UpdatePreviews_preview_songs (d : OrganiseDialog) :
  preview_songs_ (UpdatePreviews d) = preview_songs_ d.
Proof. apply UpdatePreviews_members. Qed.

Lemma naming_setPlainText_preview_songs (text : string) (d : OrganiseDialog) :
  preview_songs_ (naming_setPlainText text d) = preview_songs_ d.
Proof. unfold naming_setPlainText. now rewrite UpdatePreviews_preview_songs. Qed.

Lemma replace_ascii_setChecked_preview_songs (b : bool) (d : OrganiseDialog) :
  preview_songs_ (replace_ascii_setChecked b d) = preview_songs_ d.
Proof.
  unfold replace_ascii_setChecked.
  destruct (Bool.eqb _ _); [| rewrite UpdatePreviews_preview_songs]; reflexivity.
Qed.

Lemma replace_spaces_setChecked_preview_songs (b : bool) (d : OrganiseDialog) :
  preview_songs_ (replace_spaces_setChecked b d) = preview_songs_ d.
Proof.
  unfold replace_spaces_setChecked.
  destruct (Bool.eqb _ _); [| rewrite UpdatePreviews_preview_songs]; reflexivity.
Qed.

Lemma replace_the_setChecked_preview_songs (b : bool) (d : OrganiseDialog) :
  preview_songs_ (replace_the_setChecked b d) = preview_songs_ d.
Proof.
  unfold replace_the_setChecked.
  destruct (Bool.eqb _ _); [| rewrite UpdatePreviews_preview_songs]; reflexivity.
Qed.

Lemma destination_setCurrentIndex_preview_songs (i : Z) (d : OrganiseDialog) :
  preview_songs_ (destination_setCurrentIndex i d) = preview_songs_ d.
Proof.
  unfold destination_setCurrentIndex; cbv zeta.
  destruct (_ =? _); [| rewrite UpdatePreviews_preview_songs]; reflexivity.
Qed.

Create Rewrite HintDb preview_songs.
Hint Rewrite UpdatePreviews_preview_songs naming_setPlainText_preview_songs
  replace_ascii_setChecked_preview_songs replace_spaces_setChecked_preview_songs
  replace_the_setChecked_preview_songs destination_setCurrentIndex_preview_songs
  : preview_songs.

Ltac same_songs :=
  repeat (simpl preview_songs_; autorewrite with preview_songs); try reflexivity.

Lemma Reset_preview_songs (d : OrganiseDialog) :
  preview_songs_ (Reset d) = preview_songs_ d.
Proof.
  unfold Reset, eject_after_setChecked, overwrite_setChecked, with_ui; cbv zeta.
  same_songs.
Qed.

Lemma showEvent_preview_songs (s : gmap string QVariant) (d : OrganiseDialog) :
  preview_songs_ (showEvent s d) = preview_songs_ d.
Proof.
  unfold showEvent, eject_after_setChecked, overwrite_setChecked, with_ui; cbv zeta.
  destruct (_ && _); same_songs.
Qed.

Lemma perform_preview_count (a : Action) (d : OrganiseDialog) :
  count (preview_songs_ d) <= kNumberOfPreviews ->
  count (preview_songs_ (perform a d)) <= kNumberOfPreviews.
Proof.
  intros Hd. destruct a; unfold perform.
  - now rewrite naming_setPlainText_preview_songs.
  - now rewrite replace_ascii_setChecked_preview_songs.
  - now rewrite replace_spaces_setChecked_preview_songs.
  - now rewrite replace_the_setChecked_preview_songs.
  - exact Hd.
  - exact Hd.
  - exact Hd.
  - now rewrite destination_setCurrentIndex_preview_songs.
  - unfold SetDestinationModel, destination_setModel; cbv zeta.
    destruct (_ =? _); [exact Hd |].
    change (count (preview_songs_
                     (UpdatePreviews
                        (with_ui
                           (ui_set_destination
                              {| model := rows;
                                 currentIndex := match rows with [] => -1 | _ => 0 end |})
                           d))) <= kNumberOfPreviews).
    now rewrite UpdatePreviews_preview_songs.
  - unfold SetSongs. destruct (foldl _ _ _). apply SetFilenames_preview_count.
  - apply SetFilenames_preview_count.
  - apply SetFilenames_preview_count.
  - exact Hd.
  - unfold InsertTag; cbv zeta. now rewrite naming_setPlainText_preview_songs.
  - now rewrite Reset_preview_songs.
  - now rewrite showEvent_preview_songs.
Qed.

(** C9.  The preview list holds at most [kNumberOfPreviews] = 10 songs:
    after [SetFilenames], whatever the file names and the directories
    behind them; after [LoadPreviewSongs] on a list within the bound; and
    so in every state the dialog is taken to from a state within the
    bound. *)
Theorem preview_songs_at_most_ten :
  kNumberOfPreviews = 10
  /\ (forall (fs : FileSystem) (files : list string) (total : Z) (d : OrganiseDialog),
        count (preview_songs_ (SetFilenames fs files total d)) <= kNumberOfPreviews)
  /\ (forall (fs : FileSystem) (filename : string) (songs : SongList),
        count songs <= kNumberOfPreviews ->
        count (LoadPreviewSongs fs filename songs) <= kNumberOfPreviews)
  /\ (forall (actions : list Action) (d : OrganiseDialog),
        count (preview_songs_ d) <= kNumberOfPreviews ->
        count (preview_songs_ (perform_all actions d)) <= kNumberOfPreviews).
Proof.
  split; [reflexivity |].
  split; [apply SetFilenames_preview_count |].
  split; [apply LoadPreviewSongs_count |].
  unfold perform_all.
  induction actions as [| a actions IH]; intros d Hd; simpl.
  - exact Hd.
  - apply IH, perform_preview_count, Hd.
Qed.

End PreviewFacts.

(** *** Examples *)

Import Dialog.Examples.

Lemma UpdatePreviews_ok_enabled_iff_witness :
  ok_enabled (ui_ (UpdatePreviews dialog_0)) = false.
Proof.
  apply (proj2 (proj2 (proj2 (UpdatePreviews_ok_enabled_iff dialog_0))));
    vm_compute; [discriminate | reflexivity].
Defined.

Lemma capacity_zero_skips_space_check_witness :
  reported_capacity (on_row 2 dialog_0) = 0
  /\ to_quint64 (reported_free (on_row 2 dialog_0)) < total_size_ (on_row 2 dialog_0)
  /\ ok_enabled (ui_ (UpdatePreviews (on_row 2 dialog_0))) = true.
Proof.
  split; [reflexivity |]. split; [reflexivity |].
  apply (proj1 (capacity_zero_skips_space_check (on_row 2 dialog_0) eq_refl)).
  split; [reflexivity |]. split; [eexists; reflexivity | discriminate].
Defined.

Lemma UpdatePreviews_invalid_frame_witness :
  ok_enabled (ui_ (UpdatePreviews dialog_invalid)) = false
  /\ preview (ui_ (UpdatePreviews dialog_invalid)) = ["stale"]
  /\ preview_group_visible (ui_ (UpdatePreviews dialog_invalid)) = true
  /\ naming_group_visible (ui_ (UpdatePreviews dialog_invalid)) = false.
Proof.
  apply (UpdatePreviews_invalid_frame dialog_invalid). reflexivity.
Defined.

(** C3, as the claim has it, fails: with the device without a local root
    selected, a valid template and one preview song loaded,
    [UpdatePreviews] computes no path for the song; the preview list is
    empty and its group hidden. *)
Lemma no_local_root_preview_counterexample :
  selected_storage (on_row 1 dialog_0) = Some {| LocalPath := "" |}
  /\ IsValid (ui_format (ui_ (on_row 1 dialog_0))) = true
  /\ preview_songs_ (on_row 1 dialog_0) = [song_1]
  /\ preview (ui_ (UpdatePreviews (on_row 1 dialog_0))) = []
  /\ preview_group_visible (ui_ (UpdatePreviews (on_row 1 dialog_0))) = false
  /\ ~ (length (preview (ui_ (UpdatePreviews (on_row 1 dialog_0))))
        = length (preview_songs_ (on_row 1 dialog_0))).
Proof.
  repeat split; vm_compute; discriminate.
Qed.

Lemma no_local_root_hides_preview_witness :
  preview (ui_ (UpdatePreviews (on_row 1 dialog_0))) = []
  /\ preview_group_visible (ui_ (UpdatePreviews (on_row 1 dialog_0))) = false
  /\ naming_group_visible (ui_ (UpdatePreviews (on_row 1 dialog_0))) = false.
Proof.
  pose proof (no_local_root_hides_preview (on_row 1 dialog_0) {| LocalPath := "" |}
                eq_refl eq_refl eq_refl) as H.
  destruct H as (H1 & H2 & H3 & _). repeat split; assumption.
Defined.

Lemma SetSongs_total_and_filenames_witness :
  total_size_ (SetSongs fs_0 songs_0 dialog_0) = sum_sizes (List.filter counted songs_0)
  /\ sum_sizes (List.filter counted songs_0) = 210
  /\ filenames_ (SetSongs fs_0 songs_0 dialog_0)
     = ["/music/a.mp3"; "/music/b.mp3"; "/music/notes.txt"].
Proof.
  split; [| split].
  - apply (proj2 (proj2 (SetSongs_total_and_filenames fs_0 songs_0 dialog_0))).
    + vm_compute. discriminate.
    + repeat constructor; vm_compute; discriminate.
  - reflexivity.
  - rewrite (proj1 (proj2 (SetSongs_total_and_filenames fs_0 songs_0 dialog_0))).
    reflexivity.
Defined.

(** C7, as the claim has it, fails: a directory whose entries are a
    readable song file and a readable directory with a song in it, both
    with names that start with a dot and neither of them [.] or [..], is
    expanded into nothing, where the readable entries other than [.] and
    [..] would give two songs. *)
Lemma hidden_entries_counterexample :
  fs_hidden !! "/dotted" = Some (FsDir listing_hidden)
  /\ List.filter
       (fun e => entry_readable e
                 && negb (String.eqb (entry_name e) ".")
                 && negb (String.eqb (entry_name e) ".."))
       listing_hidden = listing_hidden
  /\ foldl (fun songs e => load_node (entry_node e) songs) [] listing_hidden
     = [song_1; song_2]
  /\ is_valid song_1 = true
  /\ is_valid song_2 = true
  /\ LoadPreviewSongs fs_hidden "/dotted" [] = []
  /\ LoadPreviewSongs fs_hidden "/dotted" []
     <> foldl (fun songs e => load_node (entry_node e) songs) []
          (List.filter
             (fun e => entry_readable e
                       && negb (String.eqb (entry_name e) ".")
                       && negb (String.eqb (entry_name e) ".."))
             listing_hidden).
Proof.
  repeat split; vm_compute; try reflexivity; discriminate.
Qed.

Lemma LoadPreviewSongs_expands_and_skips_witness :
  load_node
    (FsDir (listing_before ++ Entry "notes.txt" true (FsFile song_unreadable)
              :: listing_after)) []
  = load_node (FsDir (listing_before ++ listing_after)) []
  /\ load_node
       (FsDir (listing_before ++ Entry ".git" true (FsDir listing_before)
                 :: listing_after)) []
     = load_node (FsDir (listing_before ++ listing_after)) []
  /\ LoadPreviewSongs fs_0 "/music" [] = [song_1; song_2].
Proof.
  pose proof (LoadPreviewSongs_expands_and_skips fs_0 "/music" []) as Hthm.
  destruct Hthm as (Hall & _ & Hhidden & _ & Hskip).
  split; [| split].
  - apply Hskip. vm_compute. reflexivity.
  - apply Hhidden. vm_compute. reflexivity.
  - rewrite Hall. vm_compute. reflexivity.
Defined.

Lemma preview_songs_at_most_ten_witness :
  count (LoadPreviewSongs fs_many "/album" [song_2]) <= kNumberOfPreviews.
Proof.
  apply (proj1 (proj2 (proj2 preview_songs_at_most_ten))).
  vm_compute. discriminate.
Defined.

(** Twelve songs in a directory, ten previews. *)
Example twelve_songs_ten_previews :
  count (songs_at fs_many "/album") = 12
  /\ count (preview_songs_ (SetFilenames fs_many ["/album"] 0 dialog_0)) = 10.
Proof. split; reflexivity. Qed.

Lemma Reset_restores_defaults_witness :
  naming (ui_ (Reset dialog_invalid)) = kDefaultFormat
  /\ overwrite (ui_ (Reset dialog_invalid)) = true.
Proof.
  destruct Reset_restores_defaults as [_ H].
  destruct (H dialog_invalid) as (Hn & _ & _ & _ & Ho & _).
  split; assumption.
Defined.

(** A dialog shown with no stored settings and accepted as it is. *)
Lemma accept_starts_one_batch_witness :
  started (fst (accept world_0 (showEvent ∅ dialog_0)))
  = [ {| o_task_manager := 0%nat;
         o_destination := Some {| LocalPath := "/home/music" |};
         o_format := {| format := kDefaultFormat; replace_non_ascii := false;
                        replace_spaces := false; replace_the := false |};
         o_copy := true; o_overwrite := true;
         o_files := ["/music/a.mp3"]; o_eject_after := false |} ].
Proof.
  destruct accept_starts_one_batch as [H _].
  destruct (H world_0 (showEvent ∅ dialog_0)) as [Hs _].
  rewrite Hs. reflexivity.
Defined.

End DialogProofs.

(* ===================================================================== *)
(** * Further properties of the dialog *)
(* ===================================================================== *)

Module DialogRunProofs.

Import Dialog.

Local Open Scope Z_scope.

Section PreviewDisplay.

Context `{Qt : QtCore} `{Engine : FormatEngine}.

(** X10.  [UpdatePreviews] is idempotent: run a second time on its own
    result it changes nothing, so a signal delivered twice is harmless. *)
Theorem UpdatePreviews_idempotent (d : OrganiseDialog) :
  UpdatePreviews (UpdatePreviews d) = UpdatePreviews d.
Proof.
  destruct d as [u tm ts fn ps f acc].
  destruct u as [nm ra rs rt ow ej ejv ac dest bar ok pv pgv ngv].
  unfold UpdatePreviews at 2 3; cbv zeta.
  unfold set_replace_the, set_replace_spaces, set_replace_non_ascii, set_format.
  simpl.
  destruct (IsValid _) eqn:Ev; simpl;
    unfold UpdatePreviews; cbv zeta;
    unfold set_replace_the, set_replace_spaces, set_replace_non_ascii, set_format;
    simpl; rewrite Ev; simpl;
    unfold update_free_space;
    destruct (_ =? 0) eqn:Ec; simpl; rewrite ?Ec; reflexivity.
Qed.

Lemma UpdatePreviews_destination (d : OrganiseDialog) :
  destination (ui_ (UpdatePreviews d)) = destination (ui_ d).
Proof.
  pose proof (DialogProofs.UpdatePreviews_inputs d) as H.
  unfold inputs in H. congruence.
Qed.

(** X11.  With a valid template and a storage target that has a local
    root, [UpdatePreviews] shows the preview group and the naming group
    and lists one path per preview song, in order: the local root, a
    slash and the name the format object gives the song, with native
    separators. *)
Theorem UpdatePreviews_local_preview (d : OrganiseDialog) (s : MusicStorage) :
  IsValid (ui_format (ui_ d)) = true ->
  selected_storage d = Some s ->
  LocalPath s <> "" ->
  preview (ui_ (UpdatePreviews d))
  = List.map (preview_path s (ui_format (ui_ d))) (preview_songs_ d)
  /\ length (preview (ui_ (UpdatePreviews d))) = length (preview_songs_ d)
  /\ preview_group_visible (ui_ (UpdatePreviews d)) = true
  /\ naming_group_visible (ui_ (UpdatePreviews d)) = true.
Proof.
  intros Hv Hs Hl.
  assert (preview (ui_ (UpdatePreviews d))
          = List.map (preview_path s (ui_format (ui_ d))) (preview_songs_ d)
          /\ preview_group_visible (ui_ (UpdatePreviews d)) = true
          /\ naming_group_visible (ui_ (UpdatePreviews d)) = true) as (Hp & Hg & Hn).
  { unfold UpdatePreviews; cbv zeta.
    destruct (negb (IsValid _)) eqn:E.
    - assert (negb (IsValid (ui_format (ui_ d))) = true) as E' by exact E.
      rewrite Hv in E'. discriminate E'.
    - fold (selected_storage d). rewrite Hs. simpl.
      destruct (LocalPath s) eqn:El; [contradiction |]. simpl.
      rewrite <- El. repeat split. }
  repeat split; try assumption.
  rewrite Hp. apply List.length_map.
Qed.

(** *** The Ok button is kept up to date *)

Lemma UpdatePreviews_fresh (d : OrganiseDialog) : ok_fresh (UpdatePreviews d).
Proof.
  unfold ok_fresh, selected_storage, reported_capacity, reported_free.
  rewrite DialogProofs.UpdatePreviews_ok, UpdatePreviews_destination.
  destruct (DialogProofs.UpdatePreviews_members d) as (Hf & Ht & _).
  rewrite Hf, Ht.
  rewrite (DialogProofs.ui_format_inputs _ _ (DialogProofs.UpdatePreviews_inputs d)).
  reflexivity.
Qed.

Create HintDb fresh.
Local Hint Resolve UpdatePreviews_fresh : fresh.

Lemma replace_ascii_setChecked_fresh (b : bool) (d : OrganiseDialog) :
  ok_fresh d -> ok_fresh (replace_ascii_setChecked b d).
Proof.
  unfold replace_ascii_setChecked. destruct (Bool.eqb _ _); auto with fresh.
Qed.

Lemma replace_spaces_setChecked_fresh (b : bool) (d : OrganiseDialog) :
  ok_fresh d -> ok_fresh (replace_spaces_setChecked b d).
Proof.
  unfold replace_spaces_setChecked. destruct (Bool.eqb _ _); auto with fresh.
Qed.

Lemma replace_the_setChecked_fresh (b : bool) (d : OrganiseDialog) :
  ok_fresh d -> ok_fresh (replace_the_setChecked b d).
Proof.
  unfold replace_the_setChecked. destruct (Bool.eqb _ _); auto with fresh.
Qed.

Lemma destination_setCurrentIndex_fresh (i : Z) (d : OrganiseDialog) :
  ok_fresh d -> ok_fresh (destination_setCurrentIndex i d).
Proof.
  unfold destination_setCurrentIndex; cbv zeta.
  destruct (_ =? _); auto with fresh.
Qed.

Lemma SetFilenames_fresh (fs : FileSystem) (files : list string) (total : Z)
    (d : OrganiseDialog) :
  ok_fresh (SetFilenames fs files total d).
Proof. unfold SetFilenames; cbv zeta. auto with fresh. Qed.

Lemma Reset_fresh (d : OrganiseDialog) : ok_fresh (Reset d).
Proof.
  unfold Reset, eject_after_setChecked, overwrite_setChecked.
  cut (ok_fresh
         (replace_the_setChecked false
            (replace_spaces_setChecked false
               (replace_ascii_setChecked false
                  (naming_setPlainText kDefaultFormat d))))).
  { unfold ok_fresh. simpl. auto. }
  apply replace_the_setChecked_fresh, replace_spaces_setChecked_fresh,
    replace_ascii_setChecked_fresh.
  unfold naming_setPlainText. auto with fresh.
Qed.

Lemma showEvent_fresh (s : gmap string QVariant) (d : OrganiseDialog) :
  ok_fresh (showEvent s d).
Proof.
  unfold showEvent, eject_after_setChecked, overwrite_setChecked; cbv zeta.
  match goal with
  | |- ok_fresh (if _ then destination_setCurrentIndex _ ?x else ?x) =>
      assert (ok_fresh x) as Hx
  end.
  { match goal with
    | |- ok_fresh (with_ui _ (with_ui _ ?y)) =>
        cut (ok_fresh y); [unfold ok_fresh; simpl; auto |]
    end.
    apply replace_the_setChecked_fresh, replace_spaces_setChecked_fresh,
      replace_ascii_setChecked_fresh.
    unfold naming_setPlainText. auto with fresh. }
  destruct (_ && _); [apply destination_setCurrentIndex_fresh |]; exact Hx.
Qed.

Lemma perform_fresh (a : Action) (d : OrganiseDialog) :
  keeps_model a = true -> ok_fresh d -> ok_fresh (perform a d).
Proof.
  intros Ha Hd. destruct a; simpl; try discriminate Ha.
  - unfold naming_setPlainText. auto with fresh.
  - now apply replace_ascii_setChecked_fresh.
  - now apply replace_spaces_setChecked_fresh.
  - now apply replace_the_setChecked_fresh.
  - exact Hd.
  - exact Hd.
  - exact Hd.
  - now apply destination_setCurrentIndex_fresh.
  - unfold SetSongs. destruct (foldl _ _ _). apply SetFilenames_fresh.
  - apply SetFilenames_fresh.
  - apply SetFilenames_fresh.
  - exact Hd.
  - unfold InsertTag, naming_setPlainText; cbv zeta. auto with fresh.
  - apply Reset_fresh.
  - apply showEvent_fresh.
Qed.

Lemma perform_all_fresh (actions : list Action) (d : OrganiseDialog) :
  forallb keeps_model actions = true -> ok_fresh d ->
  ok_fresh (perform_all actions d).
Proof.
  unfold perform_all. revert d.
  induction actions as [| a actions IH]; intros d Ha Hd; simpl.
  - exact Hd.
  - simpl in Ha. apply andb_true_iff in Ha. destruct Ha as [Ha Hrest].
    apply IH; [exact Hrest |]. now apply perform_fresh.
Qed.

(** X12.  In a dialog that has been shown, after any sequence of edits
    and calls that does not replace the destination model, the Ok button
    is enabled exactly when the template in the widgets is valid, a
    storage target is selected, the file list is not empty and the space
    test passes: no edit leaves the button stale. *)
Theorem ok_button_never_stale (s : gmap string QVariant) (d0 : OrganiseDialog)
    (actions : list Action) :
  forallb keeps_model actions = true ->
  ok_enabled (ui_ (perform_all actions (showEvent s d0))) = true
  <-> IsValid (ui_format (ui_ (perform_all actions (showEvent s d0)))) = true
      /\ is_Some (selected_storage (perform_all actions (showEvent s d0)))
      /\ filenames_ (perform_all actions (showEvent s d0)) <> []
      /\ ~ (to_quint64 (reported_capacity (perform_all actions (showEvent s d0))) <> 0
            /\ to_quint64 (reported_free (perform_all actions (showEvent s d0)))
               < total_size_ (perform_all actions (showEvent s d0))).
Proof.
  intros Ha.
  pose proof (perform_all_fresh actions (showEvent s d0) Ha (showEvent_fresh s d0)) as H.
  unfold ok_fresh in H. rewrite H. apply DialogProofs.ok_value_true.
Qed.

End PreviewDisplay.

(** ** The file list and the previews *)

Section FileLists.

Context `{Qt : QtCore} `{Engine : FormatEngine}.

Lemma UpdatePreviews_additional_bytes (d : OrganiseDialog) :
  additional_bytes (free_space (ui_ (UpdatePreviews d)))
  = additional_bytes (free_space (ui_ d)).
Proof.
  unfold UpdatePreviews; cbv zeta.
  destruct (negb (IsValid _)); simpl; unfold update_free_space;
    destruct (_ =? 0); reflexivity.
Qed.

Lemma songs_under_valid (node : FsNode) :
  Forall (fun song => is_valid song = true) (songs_under node).
Proof.
  induction node as [song | listing IH] using DialogProofs.FsNode_tree_ind.
  - simpl. destruct (is_valid song) eqn:E; repeat constructor. exact E.
  - induction IH as [| e rest He Hrest IHrest].
    + constructor.
    + rewrite DialogProofs.songs_under_cons.
      destruct (listed e); [apply Forall_app; split |]; assumption.
Qed.

Lemma songs_at_valid (fs : FileSystem) (filename : string) :
  Forall (fun song => is_valid song = true) (songs_at fs filename).
Proof.
  unfold songs_at. destruct (fs !! filename); [apply songs_under_valid | constructor].
Qed.

Lemma found_songs_valid (fs : FileSystem) (files : list string) :
  Forall (fun song => is_valid song = true) (found_songs fs files).
Proof.
  unfold found_songs. induction files as [| f files IH]; simpl.
  - constructor.
  - apply Forall_app. split; [apply songs_at_valid | exact IH].
Qed.

(** The loop of [SetFilenames] over the names. *)
Lemma load_all_found (fs : FileSystem) (files : list string) :
  forall acc : SongList,
    foldl (fun songs f => LoadPreviewSongs fs f songs) acc files
    = acc ++ take (room acc) (found_songs fs files).
Proof.
  unfold found_songs.
  induction files as [| f files IH]; intros acc; simpl.
  - now rewrite take_nil, app_nil_r.
  - rewrite IH, DialogProofs.LoadPreviewSongs_songs_at, DialogProofs.room_app.
    rewrite <- app_assoc. f_equal. apply DialogProofs.take_room_app.
Qed.

(** X5.  [SetFilenames] stores the whole list of names and the total size
    as given, tells the free space bar the total, and replaces the preview
    songs, whatever they were, by the first ten valid songs found under
    the first ten names, directories expanded; every preview song is a
    valid song. *)
Theorem SetFilenames_state (fs : FileSystem) (files : list string) (total : Z)
    (d : OrganiseDialog) :
  filenames_ (SetFilenames fs files total d) = files
  /\ total_size_ (SetFilenames fs files total d) = total
  /\ additional_bytes (free_space (ui_ (SetFilenames fs files total d))) = total
  /\ preview_songs_ (SetFilenames fs files total d)
     = take 10 (found_songs fs (take 10 files))
  /\ Forall (fun song => is_valid song = true)
       (preview_songs_ (SetFilenames fs files total d)).
Proof.
  destruct (DialogProofs.SetFilenames_members fs files total d) as [Hf Ht].
  assert (preview_songs_ (SetFilenames fs files total d)
          = take 10 (found_songs fs (take 10 files))) as Hp.
  { unfold SetFilenames; cbv zeta.
    rewrite DialogProofs.UpdatePreviews_preview_songs. simpl.
    rewrite load_all_found. simpl.
    replace (Z.to_nat (Z.min (count files) kNumberOfPreviews))
      with (length files `min` 10)%nat by (unfold count, kNumberOfPreviews; lia).
    rewrite <- take_take.
    rewrite (take_ge (take 10 files) (length files)) by (rewrite length_take; lia).
    reflexivity. }
  split; [exact Hf |]. split; [exact Ht |]. split; [| split; [exact Hp |]].
  - unfold SetFilenames; cbv zeta. now rewrite UpdatePreviews_additional_bytes.
  - rewrite Hp. apply Forall_take, found_songs_valid.
Qed.

(** X6.  [LoadPreviewSongs] only appends, and only valid songs; it leaves
    the list as it is once ten songs are loaded, for a name under which
    nothing is found, and for a directory that lists nothing. *)
Theorem LoadPreviewSongs_only_appends (fs : FileSystem) (filename : string)
    (songs : SongList) :
  (exists added : SongList,
     LoadPreviewSongs fs filename songs = songs ++ added
     /\ Forall (fun song => is_valid song = true) added)
  /\ (kNumberOfPreviews <= count songs -> LoadPreviewSongs fs filename songs = songs)
  /\ (fs !! filename = None -> LoadPreviewSongs fs filename songs = songs)
  /\ (fs !! filename = Some (FsDir []) -> LoadPreviewSongs fs filename songs = songs).
Proof.
  split; [| split; [| split]].
  - exists (take (room songs) (songs_at fs filename)).
    split; [apply DialogProofs.LoadPreviewSongs_songs_at |].
    apply Forall_take, songs_at_valid.
  - intros H. rewrite DialogProofs.LoadPreviewSongs_songs_at.
    replace (room songs) with 0%nat by (unfold room; lia).
    now rewrite take_0, app_nil_r.
  - intros H. unfold LoadPreviewSongs. now rewrite H.
  - intros H. rewrite DialogProofs.LoadPreviewSongs_songs_at.
    unfold songs_at. rewrite H. simpl. now rewrite take_nil, app_nil_r.
Qed.

Lemma SetFilenames_ok (fs : FileSystem) (files : list string) (total : Z)
    (d : OrganiseDialog) :
  ok_enabled (ui_ (SetFilenames fs files total d))
  = ok_value (IsValid (ui_format (ui_ d))) (selected_storage d) files
      (to_quint64 (reported_capacity d)) (to_quint64 (reported_free d)) total.
Proof.
  unfold SetFilenames; cbv zeta. rewrite DialogProofs.UpdatePreviews_ok.
  reflexivity.
Qed.

(** X7.  [SetUrls] records the local-file forms of exactly the URLs whose
    scheme is [file], in order, a URL without a scheme included among the
    dropped ones, and takes the total size as it is given; when no URL has
    the scheme [file] the Ok button is disabled. *)
Theorem SetUrls_keeps_file_urls (fs : FileSystem) (urls : list QUrl) (total : Z)
    (d : OrganiseDialog) :
  filenames_ (SetUrls fs urls total d)
  = List.map toLocalFile (List.filter (fun url => String.eqb (scheme url) "file") urls)
  /\ total_size_ (SetUrls fs urls total d) = total
  /\ (forall name : string,
        In name (filenames_ (SetUrls fs urls total d)) ->
        exists url : QUrl, In url urls /\ scheme url = "file" /\ toLocalFile url = name)
  /\ (Forall (fun url => scheme url <> "file") urls ->
      filenames_ (SetUrls fs urls total d) = []
      /\ ok_enabled (ui_ (SetUrls fs urls total d)) = false).
Proof.
  unfold SetUrls.
  destruct (DialogProofs.SetFilenames_members fs
              (List.map toLocalFile
                 (List.filter (fun url => String.eqb (scheme url) "file") urls))
              total d) as [Hf Ht].
  split; [exact Hf |]. split; [exact Ht |]. split.
  - intros name Hin. rewrite Hf in Hin.
    apply List.in_map_iff in Hin. destruct Hin as (url & Hu & Hin).
    apply List.filter_In in Hin. destruct Hin as [Hin Hs].
    exists url. repeat split; try assumption. now apply String.eqb_eq.
  - intros Hall.
    assert (List.filter (fun url => String.eqb (scheme url) "file") urls = []) as He.
    { clear Hf Ht.
      induction Hall as [| url urls Hu Hall IH]; simpl; [reflexivity |].
      apply String.eqb_neq in Hu. rewrite Hu. exact IH. }
    split; [rewrite Hf, He; reflexivity |].
    rewrite SetFilenames_ok, He. simpl. unfold ok_value.
    rewrite andb_false_r. now destruct (_ && _).
Qed.

(** X8.  On a song list whose URLs all carry the scheme [file],
    [SetSongs] does what [SetUrls] does on the URLs of the songs with the
    total size [SetSongs] computes: the two leave the dialog in the same
    state. *)
Theorem SetSongs_as_SetUrls (fs : FileSystem) (songs : SongList) (d : OrganiseDialog) :
  Forall (fun song => isEmpty (QUrl_new (filename song)) = false
                      /\ scheme (QUrl_new (filename song)) = "file") songs ->
  SetSongs fs songs d
  = SetUrls fs (List.map (fun song => QUrl_new (filename song)) songs)
      (sum_sizes (List.filter counted songs) mod 2 ^ 64) d.
Proof.
  intros Hall. unfold SetSongs, SetUrls.
  rewrite DialogProofs.SetSongs_loop by lia. simpl.
  f_equal.
  induction Hall as [| song songs [He Hs] Hall IH]; simpl; [reflexivity |].
  unfold has_local_url at 1. rewrite He, Hs. simpl.
  rewrite IH. reflexivity.
Qed.

(** X9.  After [SetSongs] the Ok button is enabled exactly when the
    template is valid, a storage target is selected, at least one song of
    the list has a local URL, and the sizes of the local songs do not
    exceed the free space of a target that reports a capacity.  An empty
    list, or a list of remote songs only, leaves the button disabled. *)
Theorem SetSongs_ok_enabled (fs : FileSystem) (songs : SongList) (d : OrganiseDialog) :
  ok_enabled (ui_ (SetSongs fs songs d)) = true
  <-> IsValid (ui_format (ui_ d)) = true
      /\ is_Some (selected_storage d)
      /\ (exists song : Song, In song songs /\ has_local_url song = true)
      /\ ~ (to_quint64 (reported_capacity d) <> 0
            /\ to_quint64 (reported_free d)
               < sum_sizes (List.filter counted songs) mod 2 ^ 64).
Proof.
  unfold SetSongs. rewrite DialogProofs.SetSongs_loop by lia. simpl.
  rewrite SetFilenames_ok, DialogProofs.ok_value_true.
  assert (List.map local_file (List.filter has_local_url songs) <> []
          <-> exists song : Song, In song songs /\ has_local_url song = true) as Hn.
  { split.
    - intros Hne. destruct (List.filter has_local_url songs) as [| song l] eqn:E.
      + now contradiction Hne.
      + exists song. apply List.filter_In. rewrite E. now left.
    - intros (song & Hin & Hl) He.
      apply List.map_eq_nil in He.
      assert (In song (List.filter has_local_url songs)) as Hf
        by (apply List.filter_In; split; assumption).
      rewrite He in Hf. exact Hf. }
  rewrite Hn. reflexivity.
Qed.

End FileLists.

(** ** Settings: [accept] and [showEvent] *)

Section Settings.

Context `{Qt : QtCore} `{Engine : FormatEngine}.

Ltac stored :=
  unfold accept, value, setValue; cbv zeta; simpl settings;
  repeat (rewrite lookup_insert_ne by (vm_compute; discriminate));
  rewrite lookup_insert_eq; reflexivity.

(** What [accept] leaves in the settings. *)
Lemma accept_stores (w : World) (d : OrganiseDialog) (default : QVariant) :
  value (settings (fst (accept w d))) "format" default = VString (naming (ui_ d))
  /\ value (settings (fst (accept w d))) "replace_ascii" default
     = VBool (replace_ascii (ui_ d))
  /\ value (settings (fst (accept w d))) "replace_spaces" default
     = VBool (ui_replace_spaces (ui_ d))
  /\ value (settings (fst (accept w d))) "replace_the" default
     = VBool (ui_replace_the (ui_ d))
  /\ value (settings (fst (accept w d))) "overwrite" default
     = VBool (overwrite (ui_ d))
  /\ value (settings (fst (accept w d))) "destination" default
     = VString (currentText (destination (ui_ d)))
  /\ value (settings (fst (accept w d))) "eject_after" default
     = VBool (eject_after (ui_ d)).
Proof. repeat split; stored. Qed.

Lemma showEvent_restore (s : gmap string QVariant) (d : OrganiseDialog) :
  showEvent s d
  = if negb (findText (stored_destination s) (destination (ui_ (restore_widgets s d)))
             =? -1)
       && negb (FormatTemplate.is_empty (stored_destination s))
    then destination_setCurrentIndex
           (findText (stored_destination s) (destination (ui_ (restore_widgets s d))))
           (restore_widgets s d)
    else restore_widgets s d.
Proof. reflexivity. Qed.

Lemma set_widgets_inputs (text : string) (a sp t o e : bool) (d : OrganiseDialog) :
  inputs
    (ui_ (eject_after_setChecked e
            (overwrite_setChecked o
               (replace_the_setChecked t
                  (replace_spaces_setChecked sp
                     (replace_ascii_setChecked a (naming_setPlainText text d)))))))
  = (text, a, sp, t, o, e, aftercopying (ui_ d), destination (ui_ d)).
Proof.
  unfold eject_after_setChecked, overwrite_setChecked.
  pose proof (DialogProofs.naming_setPlainText_inputs text d) as H1.
  pose proof (DialogProofs.replace_ascii_setChecked_inputs a
                (naming_setPlainText text d)) as H2.
  pose proof (DialogProofs.replace_spaces_setChecked_inputs sp
                (replace_ascii_setChecked a (naming_setPlainText text d))) as H3.
  pose proof (DialogProofs.replace_the_setChecked_inputs t
                (replace_spaces_setChecked sp
                   (replace_ascii_setChecked a (naming_setPlainText text d)))) as H4.
  unfold inputs in *.
  injection H1 as H1n H1a H1s H1t H1o H1e H1c H1d.
  injection H2 as H2n H2a H2s H2t H2o H2e H2c H2d.
  injection H3 as H3n H3a H3s H3t H3o H3e H3c H3d.
  injection H4 as H4n H4a H4s H4t H4o H4e H4c H4d.
  simpl. congruence.
Qed.

Lemma restore_widgets_inputs (s : gmap string QVariant) (d : OrganiseDialog) :
  inputs (ui_ (restore_widgets s d))
  = (toString (value s "format" (VString kDefaultFormat)),
     toBool (value s "replace_ascii" (VBool false)),
     toBool (value s "replace_spaces" (VBool false)),
     toBool (value s "replace_the" (VBool false)),
     toBool (value s "overwrite" (VBool true)),
     toBool (value s "eject_after" (VBool false)),
     aftercopying (ui_ d), destination (ui_ d)).
Proof. unfold restore_widgets; cbv zeta. apply set_widgets_inputs. Qed.

Lemma destination_setCurrentIndex_widgets (i : Z) (d : OrganiseDialog) :
  naming (ui_ (destination_setCurrentIndex i d)) = naming (ui_ d)
  /\ replace_ascii (ui_ (destination_setCurrentIndex i d)) = replace_ascii (ui_ d)
  /\ ui_replace_spaces (ui_ (destination_setCurrentIndex i d)) = ui_replace_spaces (ui_ d)
  /\ ui_replace_the (ui_ (destination_setCurrentIndex i d)) = ui_replace_the (ui_ d)
  /\ overwrite (ui_ (destination_setCurrentIndex i d)) = overwrite (ui_ d)
  /\ eject_after (ui_ (destination_setCurrentIndex i d)) = eject_after (ui_ d)
  /\ aftercopying (ui_ (destination_setCurrentIndex i d)) = aftercopying (ui_ d)
  /\ model (destination (ui_ (destination_setCurrentIndex i d)))
     = model (destination (ui_ d))
  /\ currentIndex (destination (ui_ (destination_setCurrentIndex i d)))
     = if (0 <=? i) && (i <? count (model (destination (ui_ d)))) then i else -1.
Proof.
  unfold destination_setCurrentIndex; cbv zeta.
  destruct (Z.eqb_spec
              (if (0 <=? i) && (i <? count (model (destination (ui_ d)))) then i else -1)
              (currentIndex (destination (ui_ d)))) as [He | _].
  - repeat split. symmetry. exact He.
  - match goal with
    | |- context [UpdatePreviews ?x] =>
        pose proof (DialogProofs.UpdatePreviews_inputs x) as H
    end.
    unfold inputs in H. simpl in H.
    injection H as Hn Ha Hs Ht Ho He Hc Hd.
    rewrite Hn, Ha, Hs, Ht, Ho, He, Hc, Hd. repeat split.
Qed.

(** The first row with a given text. *)
Lemma findText_from_found (text : string) (rows : list DestinationRow) :
  forall (k : Z) (i : nat) (row : DestinationRow),
    rows !! i = Some row ->
    row_text row = text ->
    (forall (j : nat) (r : DestinationRow),
       (j < i)%nat -> rows !! j = Some r -> row_text r <> text) ->
    findText_from text rows k = k + Z.of_nat i.
Proof.
  induction rows as [| r rows IH]; intros k i row Hi Ht Hfirst; [discriminate Hi |].
  simpl. destruct i as [| i].
  - simpl in Hi. injection Hi as ->. rewrite Ht, String.eqb_refl. lia.
  - assert (row_text r <> text) as Hr by (apply (Hfirst 0%nat r); [lia | reflexivity]).
    apply String.eqb_neq in Hr. rewrite Hr.
    rewrite (IH (k + 1) i row Hi Ht); [lia |].
    intros j r' Hj Hr'. apply (Hfirst (S j) r'); [lia | exact Hr'].
Qed.

Lemma findText_from_missing (text : string) (rows : list DestinationRow) (k : Z) :
  Forall (fun row => row_text row <> text) rows ->
  findText_from text rows k = -1.
Proof.
  intros Hall. revert k.
  induction Hall as [| r rows Hr Hall IH]; intros k; simpl; [reflexivity |].
  apply String.eqb_neq in Hr. rewrite Hr. apply IH.
Qed.

(** X1.  What [accept] stores, [showEvent] restores: shown with the
    settings an accepted dialog has left, any dialog gets the naming text,
    the three replace boxes, the overwrite box and the eject box of the
    accepted one, and its format object holds that template and those
    flags. *)
Theorem accept_showEvent_round_trip (w : World) (d d0 : OrganiseDialog) :
  naming (ui_ (showEvent (settings (fst (accept w d))) d0)) = naming (ui_ d)
  /\ replace_ascii (ui_ (showEvent (settings (fst (accept w d))) d0))
     = replace_ascii (ui_ d)
  /\ ui_replace_spaces (ui_ (showEvent (settings (fst (accept w d))) d0))
     = ui_replace_spaces (ui_ d)
  /\ ui_replace_the (ui_ (showEvent (settings (fst (accept w d))) d0))
     = ui_replace_the (ui_ d)
  /\ overwrite (ui_ (showEvent (settings (fst (accept w d))) d0)) = overwrite (ui_ d)
  /\ eject_after (ui_ (showEvent (settings (fst (accept w d))) d0))
     = eject_after (ui_ d)
  /\ format_ (showEvent (settings (fst (accept w d))) d0) = ui_format (ui_ d).
Proof.
  set (s := settings (fst (accept w d))).
  destruct (accept_stores w d (VString kDefaultFormat)) as (Sf & _).
  destruct (accept_stores w d (VBool false)) as (_ & Sa & Ss & St & _ & _ & Se).
  destruct (accept_stores w d (VBool true)) as (_ & _ & _ & _ & So & _).
  fold s in Sf, Sa, Ss, St, So, Se.
  assert (inputs (ui_ (restore_widgets s d0))
          = (naming (ui_ d), replace_ascii (ui_ d), ui_replace_spaces (ui_ d),
             ui_replace_the (ui_ d), overwrite (ui_ d), eject_after (ui_ d),
             aftercopying (ui_ d0), destination (ui_ d0))) as Hi.
  { rewrite restore_widgets_inputs, Sf, Sa, Ss, St, So, Se. reflexivity. }
  assert (naming (ui_ (showEvent s d0)) = naming (ui_ d)
          /\ replace_ascii (ui_ (showEvent s d0)) = replace_ascii (ui_ d)
          /\ ui_replace_spaces (ui_ (showEvent s d0)) = ui_replace_spaces (ui_ d)
          /\ ui_replace_the (ui_ (showEvent s d0)) = ui_replace_the (ui_ d)
          /\ overwrite (ui_ (showEvent s d0)) = overwrite (ui_ d)
          /\ eject_after (ui_ (showEvent s d0)) = eject_after (ui_ d)) as H.
  { rewrite showEvent_restore.
    set (r := restore_widgets s d0) in *.
    unfold inputs in Hi.
    destruct (_ && _).
    - destruct (destination_setCurrentIndex_widgets
                  (findText (stored_destination s) (destination (ui_ r))) r)
        as (Hn & Ha & Hs & Ht & Ho & He & _).
      rewrite Hn, Ha, Hs, Ht, Ho, He. repeat split; congruence.
    - repeat split; congruence. }
  destruct H as (Hn & Ha & Hs & Ht & Ho & He).
  repeat split; try assumption.
  rewrite (DialogProofs.showEvent_current s d0).
  unfold ui_format. now rewrite Hn, Ha, Hs, Ht.
Qed.

(** X2.  With none of its keys stored, [showEvent] sets the widgets as
    [Reset] does: the default template, the replace boxes unchecked,
    overwrite checked, eject unchecked, and the destination and the
    after-copying choice as they were. *)
Theorem showEvent_without_settings (s : gmap string QVariant) (d : OrganiseDialog) :
  (forall key : string, s !! settings_key key = None) ->
  inputs (ui_ (showEvent s d)) = inputs (ui_ (Reset d))
  /\ naming (ui_ (showEvent s d)) = kDefaultFormat
  /\ overwrite (ui_ (showEvent s d)) = true
  /\ destination (ui_ (showEvent s d)) = destination (ui_ d).
Proof.
  intros Hs.
  assert (forall key default, value s key default = default) as Hv
    by (intros key default; unfold value; now rewrite Hs).
  assert (inputs (ui_ (showEvent s d)) = inputs (ui_ (Reset d))) as Hi.
  { rewrite DialogProofs.Reset_inputs, showEvent_restore.
    unfold stored_destination. rewrite (Hv "destination").
    change (FormatTemplate.is_empty (toString Invalid)) with true.
    rewrite andb_false_r, restore_widgets_inputs, !Hv.
    reflexivity. }
  split; [exact Hi |].
  rewrite DialogProofs.Reset_inputs in Hi. unfold inputs in Hi.
  repeat split; congruence.
Qed.

(** X3.  [showEvent] selects the first row of the destination model whose
    text is the stored destination; when the stored destination is empty
    or no row carries it, the selection stays as it was.  The rows are
    never changed. *)
Theorem showEvent_restores_destination (s : gmap string QVariant) (d : OrganiseDialog) :
  model (destination (ui_ (showEvent s d))) = model (destination (ui_ d))
  /\ (stored_destination s = "" ->
      destination (ui_ (showEvent s d)) = destination (ui_ d))
  /\ (Forall (fun row => row_text row <> stored_destination s)
        (model (destination (ui_ d))) ->
      destination (ui_ (showEvent s d)) = destination (ui_ d))
  /\ (forall (i : nat) (row : DestinationRow),
        stored_destination s <> "" ->
        model (destination (ui_ d)) !! i = Some row ->
        row_text row = stored_destination s ->
        (forall (j : nat) (r : DestinationRow),
           (j < i)%nat -> model (destination (ui_ d)) !! j = Some r ->
           row_text r <> stored_destination s) ->
        currentIndex (destination (ui_ (showEvent s d))) = Z.of_nat i).
Proof.
  pose proof (restore_widgets_inputs s d) as Hi.
  assert (destination (ui_ (restore_widgets s d)) = destination (ui_ d)) as Hd
    by (unfold inputs in Hi; congruence).
  rewrite showEvent_restore, Hd.
  split; [| split; [| split]].
  - destruct (_ && _); [| now rewrite Hd].
    destruct (destination_setCurrentIndex_widgets
                (findText (stored_destination s) (destination (ui_ d)))
                (restore_widgets s d)) as (_ & _ & _ & _ & _ & _ & _ & Hm & _).
    now rewrite Hm, Hd.
  - intros He. rewrite He. simpl. now rewrite andb_false_r.
  - intros Hall. unfold findText.
    rewrite findText_from_missing by exact Hall. simpl. exact Hd.
  - intros i row Hne Hrow Ht Hfirst.
    unfold findText.
    rewrite (findText_from_found _ _ 0 i row Hrow Ht Hfirst).
    assert (Z.of_nat i < count (model (destination (ui_ d)))) as Hlt.
    { unfold count. apply lookup_lt_Some in Hrow. lia. }
    destruct (stored_destination s) eqn:E; [contradiction |]. simpl.
    destruct (Z.eqb_spec (0 + Z.of_nat i) (-1)) as [H | _]; [lia |]. simpl.
    destruct (destination_setCurrentIndex_widgets (0 + Z.of_nat i)
                (restore_widgets s d)) as (_ & _ & _ & _ & _ & _ & _ & _ & Hc).
    rewrite Hc, Hd.
    destruct (Z.leb_spec 0 (0 + Z.of_nat i)); [| lia].
    destruct (Z.ltb_spec (0 + Z.of_nat i) (count (model (destination (ui_ d)))));
      simpl; lia.
Qed.

(** X4.  [accept] writes the seven keys of its settings group and no
    other: every other key reads as before; and it changes nothing of the
    dialog but the accepted state. *)
Theorem accept_writes_its_keys_only (w : World) (d : OrganiseDialog) :
  (forall key : string,
     ~ In key accept_keys ->
     settings (fst (accept w d)) !! key = settings w !! key)
  /\ (forall key : string,
        In key accept_keys -> is_Some (settings (fst (accept w d)) !! key))
  /\ ui_ (snd (accept w d)) = ui_ d
  /\ format_ (snd (accept w d)) = format_ d
  /\ filenames_ (snd (accept w d)) = filenames_ d
  /\ total_size_ (snd (accept w d)) = total_size_ d
  /\ preview_songs_ (snd (accept w d)) = preview_songs_ d
  /\ accepted (snd (accept w d)) = true.
Proof.
  split; [| split; [| repeat split]].
  - intros key Hk. unfold accept, setValue; cbv zeta; simpl settings.
    unfold accept_keys in Hk. simpl in Hk.
    repeat (rewrite lookup_insert_ne by (intros <-; apply Hk; tauto)).
    reflexivity.
  - intros key Hk. unfold accept_keys in Hk. simpl in Hk.
    unfold accept, setValue; cbv zeta; simpl settings.
    repeat (destruct Hk as [<- | Hk];
            [repeat (rewrite lookup_insert_ne by (vm_compute; discriminate));
             rewrite lookup_insert_eq; eexists; reflexivity |]).
    contradiction.
Qed.

End Settings.

(** ** What the setters leave alone *)

Section Frames.

Context `{Qt : QtCore} `{Engine : FormatEngine}.

Lemma UpdatePreviews_kept (d : OrganiseDialog) : kept (UpdatePreviews d) = kept d.
Proof.
  unfold UpdatePreviews; cbv zeta.
  destruct (negb (IsValid _)); reflexivity.
Qed.

Lemma naming_setPlainText_kept (text : string) (d : OrganiseDialog) :
  kept (naming_setPlainText text d) = kept d.
Proof. unfold naming_setPlainText. now rewrite UpdatePreviews_kept. Qed.

Lemma replace_ascii_setChecked_kept (b : bool) (d : OrganiseDialog) :
  kept (replace_ascii_setChecked b d) = kept d.
Proof.
  unfold replace_ascii_setChecked.
  destruct (Bool.eqb _ _); [| rewrite UpdatePreviews_kept]; reflexivity.
Qed.

Lemma replace_spaces_setChecked_kept (b : bool) (d : OrganiseDialog) :
  kept (replace_spaces_setChecked b d) = kept d.
Proof.
  unfold replace_spaces_setChecked.
  destruct (Bool.eqb _ _); [| rewrite UpdatePreviews_kept]; reflexivity.
Qed.

Lemma replace_the_setChecked_kept (b : bool) (d : OrganiseDialog) :
  kept (replace_the_setChecked b d) = kept d.
Proof.
  unfold replace_the_setChecked.
  destruct (Bool.eqb _ _); [| rewrite UpdatePreviews_kept]; reflexivity.
Qed.

Lemma destination_setCurrentIndex_kept (i : Z) (d : OrganiseDialog) :
  kept (destination_setCurrentIndex i d) = kept d.
Proof.
  unfold destination_setCurrentIndex; cbv zeta.
  destruct (_ =? _); [| rewrite UpdatePreviews_kept]; reflexivity.
Qed.

Lemma set_widgets_kept (text : string) (a sp t o e : bool) (d : OrganiseDialog) :
  kept (eject_after_setChecked e
          (overwrite_setChecked o
             (replace_the_setChecked t
                (replace_spaces_setChecked sp
                   (replace_ascii_setChecked a (naming_setPlainText text d))))))
  = kept d.
Proof.
  transitivity
    (kept (replace_the_setChecked t
             (replace_spaces_setChecked sp
                (replace_ascii_setChecked a (naming_setPlainText text d)))));
    [reflexivity |].
  now rewrite replace_the_setChecked_kept, replace_spaces_setChecked_kept,
    replace_ascii_setChecked_kept, naming_setPlainText_kept.
Qed.

(** X14.  [Reset] and [showEvent] write widgets only: the file names, the
    total size, the preview songs, the task manager and the accepted
    state stay as they are, and so do the after-copying choice and the
    visibility of the eject box; [Reset] also keeps the destination
    selection. *)
Theorem Reset_and_showEvent_keep_the_batch (d : OrganiseDialog) :
  (filenames_ (Reset d) = filenames_ d
   /\ total_size_ (Reset d) = total_size_ d
   /\ preview_songs_ (Reset d) = preview_songs_ d
   /\ task_manager_ (Reset d) = task_manager_ d
   /\ accepted (Reset d) = accepted d
   /\ aftercopying (ui_ (Reset d)) = aftercopying (ui_ d)
   /\ eject_after_visible (ui_ (Reset d)) = eject_after_visible (ui_ d)
   /\ destination (ui_ (Reset d)) = destination (ui_ d))
  /\ (forall s : gmap string QVariant,
        filenames_ (showEvent s d) = filenames_ d
        /\ total_size_ (showEvent s d) = total_size_ d
        /\ preview_songs_ (showEvent s d) = preview_songs_ d
        /\ task_manager_ (showEvent s d) = task_manager_ d
        /\ accepted (showEvent s d) = accepted d
        /\ aftercopying (ui_ (showEvent s d)) = aftercopying (ui_ d)
        /\ eject_after_visible (ui_ (showEvent s d)) = eject_after_visible (ui_ d)).
Proof.
  split.
  - assert (kept (Reset d) = kept d) as Hk
      by (unfold Reset; cbv zeta; apply set_widgets_kept).
    pose proof (DialogProofs.Reset_inputs d) as Hi.
    unfold kept, members in Hk. unfold inputs in Hi.
    repeat split; congruence.
  - intros s.
    assert (kept (showEvent s d) = kept d) as Hk.
    { rewrite showEvent_restore.
      assert (kept (restore_widgets s d) = kept d) as Hr
        by (unfold restore_widgets; cbv zeta; apply set_widgets_kept).
      destruct (_ && _); [rewrite destination_setCurrentIndex_kept |]; exact Hr. }
    unfold kept, members in Hk. repeat split; congruence.
Qed.

(** After [SetCopy] the batch that [accept] starts copies exactly
    when [SetCopy] was told to copy, whatever the selector showed before;
    the rest of the batch is as it would have been. *)
Theorem SetCopy_then_accept (w : World) (d : OrganiseDialog) (copy : bool) :
  started (fst (accept w (SetCopy copy d)))
  = started w
    ++ [ {| o_task_manager := task_manager_ d;
            o_destination := selected_storage d;
            o_format := format_ d;
            o_copy := copy;
            o_overwrite := overwrite (ui_ d);
            o_files := filenames_ d;
            o_eject_after := eject_after (ui_ d) |} ]
  /\ aftercopying (ui_ (SetCopy copy d)) = (if copy then 0 else 1)
  /\ inputs (ui_ (SetCopy true (SetCopy false d)))
     = inputs (ui_ (SetCopy true d)).
Proof. destruct copy; repeat split. Qed.

(** *** Pieces of a string *)

Lemma substring_split (s : string) :
  forall n : nat,
    (n <= String.length s)%nat ->
    String.substring 0 n s +:+ String.substring n (String.length s - n) s = s
    /\ String.length (String.substring 0 n s) = n.
Proof.
  induction s as [| c s IH]; intros n Hn; simpl in Hn.
  - assert (n = 0%nat) as -> by lia. split; reflexivity.
  - destruct n as [| n].
    + split; [| reflexivity].
      change (String.substring 0 0 (String c s)) with EmptyString.
      change (EmptyString +:+ ?x) with x.
      clear IH Hn. simpl String.length.
      assert (forall t m, String.length t = m -> String.substring 0 m t = t) as H.
      { clear. induction t as [| c' t IH]; intros m Hm; simpl in Hm; subst m.
        - reflexivity.
        - simpl. f_equal. now apply IH. }
      now apply H.
    + destruct (IH n ltac:(lia)) as [H1 H2].
      split.
      * change (String.substring 0 (S n) (String c s))
          with (String c (String.substring 0 n s)).
        change (String.substring (S n) (String.length (String c s) - S n) (String c s))
          with (String.substring n (String.length s - n) s).
        change (String c ?a +:+ ?b) with (String c (a +:+ b)).
        now rewrite H1.
      * change (String.substring 0 (S n) (String c s))
          with (String c (String.substring 0 n s)).
        simpl. now rewrite H2.
Qed.

Lemma length_append (s1 s2 : string) :
  String.length (s1 +:+ s2) = (String.length s1 + String.length s2)%nat.
Proof.
  induction s1 as [| c s1 IH]; [reflexivity |].
  change (String c s1 +:+ s2) with (String c (s1 +:+ s2)).
  simpl. now rewrite IH.
Qed.

(** X13.  [InsertTag] replaces the selected part of the naming text,
    nothing for a bare cursor, by a percent sign and the tag, and keeps
    the text before and after the selection; the format object is updated
    to the new text, and the boxes, the destination and the file list are
    left as they are. *)
Theorem InsertTag_replaces_selection (sel_start sel_length : nat) (tag : string)
    (d : OrganiseDialog) :
  (sel_start + sel_length <= String.length (naming (ui_ d)))%nat ->
  exists before selected after : string,
    naming (ui_ d) = before +:+ selected +:+ after
    /\ String.length before = sel_start
    /\ String.length selected = sel_length
    /\ (sel_length = 0%nat -> naming (ui_ d) = before +:+ after)
    /\ naming (ui_ (InsertTag sel_start sel_length tag d))
       = before +:+ ("%" +:+ tag) +:+ after
    /\ format (format_ (InsertTag sel_start sel_length tag d))
       = before +:+ ("%" +:+ tag) +:+ after
    /\ replace_non_ascii (format_ (InsertTag sel_start sel_length tag d))
       = replace_ascii (ui_ d)
    /\ destination (ui_ (InsertTag sel_start sel_length tag d)) = destination (ui_ d)
    /\ filenames_ (InsertTag sel_start sel_length tag d) = filenames_ d.
Proof.
  intros Hc.
  set (text := naming (ui_ d)) in *.
  set (rest := String.substring sel_start (String.length text - sel_start) text).
  destruct (substring_split text sel_start ltac:(lia)) as [Hs Hl].
  fold rest in Hs.
  assert (String.length rest = (String.length text - sel_start)%nat) as Hr.
  { pose proof (length_append (String.substring 0 sel_start text) rest) as H.
    rewrite Hs, Hl in H. lia. }
  destruct (substring_split rest sel_length ltac:(lia)) as [Hs2 Hl2].
  exists (String.substring 0 sel_start text),
    (String.substring 0 sel_length rest),
    (String.substring sel_length (String.length rest - sel_length) rest).
  split; [now rewrite Hs2, Hs |]. split; [exact Hl |]. split; [exact Hl2 |].
  split.
  { intros H0. rewrite H0 in Hs2 |- *.
    assert (String.substring 0 0 rest = "") as H00 by (destruct rest; reflexivity).
    rewrite H00 in Hs2.
    change (String.substring 0 (String.length rest - 0) rest = rest) in Hs2.
    now rewrite Hs2, Hs. }
  unfold InsertTag; cbv zeta. fold text. fold rest.
  set (text' := _ +:+ _ +:+ _).
  pose proof (DialogProofs.naming_setPlainText_inputs text' d) as Hi.
  pose proof (naming_setPlainText_kept text' d) as Hk.
  assert (format_ (naming_setPlainText text' d)
          = ui_format (ui_ (naming_setPlainText text' d))) as Hf.
  { unfold naming_setPlainText. apply DialogProofs.UpdatePreviews_current. }
  unfold inputs in Hi. unfold kept, members in Hk.
  rewrite Hf. unfold ui_format. simpl.
  repeat split; congruence.
Qed.

End Frames.

(** ** The insert menu *)

Section InsertMenu.

Variable tr : string -> string.

Lemma assign_origin (table : list (string * string)) :
  forall (m : gmap string string) (title tag : string),
    foldl (assign_tag tr) m table !! title = Some tag ->
    m !! title = Some tag
    \/ exists source : string, In (source, tag) table /\ tr source = title.
Proof.
  induction table as [| [source0 tag0] table IH]; intros m title tag H; simpl in H.
  - now left.
  - apply IH in H. destruct H as [H | (source & Hin & Ht)].
    + unfold assign_tag in H. simpl in H.
      destruct (decide (tr source0 = title)) as [He | Hne].
      * rewrite He, lookup_insert_eq in H. injection H as ->.
        right. exists source0. split; [now left | exact He].
      * rewrite lookup_insert_ne in H by exact Hne. now left.
    + right. exists source. split; [now right | exact Ht].
Qed.

Lemma assign_other (table : list (string * string)) :
  forall (m : gmap string string) (title : string),
    ~ In title (List.map tr (List.map fst table)) ->
    foldl (assign_tag tr) m table !! title = m !! title.
Proof.
  induction table as [| [source0 tag0] table IH]; intros m title Hn; simpl.
  - reflexivity.
  - simpl in Hn. rewrite IH by tauto.
    unfold assign_tag. simpl. apply lookup_insert_ne. tauto.
Qed.

Lemma assign_kept (table : list (string * string)) :
  NoDup (List.map tr (List.map fst table)) ->
  forall (m : gmap string string) (source tag : string),
    In (source, tag) table ->
    foldl (assign_tag tr) m table !! tr source = Some tag.
Proof.
  induction table as [| [source0 tag0] table IH]; intros Hnd m source tag Hin;
    [contradiction |].
  simpl in Hnd. apply NoDup_cons in Hnd. destruct Hnd as [Hfresh Hnd].
  simpl. destruct Hin as [He | Hin].
  - injection He as <- <-.
    rewrite assign_other by (intros H; apply Hfresh, list_elem_of_In, H).
    unfold assign_tag. simpl. apply lookup_insert_eq.
  - now apply IH.
Qed.

Context (le : string -> string -> Prop) `{!RelDecision le}.

Lemma tag_menu_titles :
  List.map fst (tag_menu tr le)
  = merge_sort le (fst <$> map_to_list (build_tags tr tag_table)).
Proof.
  unfold tag_menu; cbv zeta.
  generalize (build_tags tr tag_table). intros tags.
  rewrite List.map_map. apply List.map_id.
Qed.

Lemma tag_menu_entry (title tag : string) :
  In (title, tag) (tag_menu tr le) <-> build_tags tr tag_table !! title = Some tag.
Proof.
  unfold tag_menu; cbv zeta.
  generalize (build_tags tr tag_table). intros tags.
  rewrite List.in_map_iff. split.
  - intros (t & He & Hin).
    apply list_elem_of_In in Hin. rewrite merge_sort_Permutation in Hin.
    apply list_elem_of_fmap in Hin. destruct Hin as ([t' v] & Ht & Hin).
    apply elem_of_map_to_list in Hin.
    change (t = t') in Ht. subst t'. rewrite Hin in He.
    change ((t, v) = (title, tag)) in He. congruence.
  - intros H. exists title. split; [rewrite H; reflexivity |].
    apply list_elem_of_In. rewrite merge_sort_Permutation.
    apply list_elem_of_fmap. exists (title, tag).
    split; [reflexivity | apply elem_of_map_to_list; exact H].
Qed.

(** X15.  Every action of the insert menu carries one of the sixteen valid
    tags, under the translation of a title the constructor gives that tag;
    no title appears twice, and the titles are in ascending order.  When
    the sixteen titles translate to different texts, the menu has sixteen
    actions and offers every tag under its own title. *)
Theorem tag_menu_offers_the_valid_tags :
  (forall title tag : string,
     In (title, tag) (tag_menu tr le) ->
     exists source : string, In (source, tag) tag_table /\ tr source = title)
  /\ NoDup (List.map fst (tag_menu tr le))
  /\ (Total le -> Sorted le (List.map fst (tag_menu tr le)))
  /\ (NoDup (List.map tr (List.map fst tag_table)) ->
      length (tag_menu tr le) = 16%nat
      /\ forall source tag : string,
           In (source, tag) tag_table -> In (tr source, tag) (tag_menu tr le)).
Proof.
  assert (forall title tag : string,
            In (title, tag) (tag_menu tr le) ->
            exists source : string, In (source, tag) tag_table /\ tr source = title)
    as Horigin.
  { intros title tag Hin.
    pose proof (proj1 (tag_menu_entry title tag) Hin) as Hl.
    destruct (assign_origin tag_table ∅ title tag Hl) as [He | Hs]; [| exact Hs].
    rewrite lookup_empty in He. discriminate He. }
  assert (NoDup (List.map fst (tag_menu tr le))) as Hnd.
  { rewrite tag_menu_titles, merge_sort_Permutation.
    apply NoDup_fst_map_to_list. }
  split; [exact Horigin |]. split; [exact Hnd |]. split.
  - intros Htotal. rewrite tag_menu_titles.
    exact (Sorted_merge_sort le _).
  - intros Hinj.
    assert (forall source tag : string,
              In (source, tag) tag_table -> In (tr source, tag) (tag_menu tr le))
      as Hall.
    { intros source tag Hin.
      exact (proj2 (tag_menu_entry (tr source) tag)
               (assign_kept tag_table Hinj ∅ source tag Hin)). }
    split; [| exact Hall].
    assert (forall title : string,
              title ∈ List.map fst (tag_menu tr le)
              <-> title ∈ List.map tr (List.map fst tag_table)) as Hsame.
    { intros title. rewrite !list_elem_of_In, !List.in_map_iff. split.
      - intros ([t tag] & Ht & Hin). change (t = title) in Ht. subst t.
        destruct (Horigin title tag Hin) as (source & Hs & Ht).
        exists source. split; [exact Ht |].
        apply List.in_map_iff. exists (source, tag). split; [reflexivity | exact Hs].
      - intros (source & Ht & Hin). subst title.
        apply List.in_map_iff in Hin. destruct Hin as ([source' tag] & Hf & Hin).
        change (source' = source) in Hf. subst source'.
        exists (tr source, tag). split; [reflexivity | apply Hall; exact Hin]. }
    rewrite <- (List.length_map fst).
    rewrite (Permutation_length (NoDup_Permutation _ _ Hnd Hinj Hsame)).
    rewrite !List.length_map. reflexivity.
Qed.

End InsertMenu.

(** *** Examples *)

Import Dialog.Examples.

Lemma UpdatePreviews_local_preview_witness :
  preview (ui_ (UpdatePreviews dialog_0))
  = ["/home/music/Artist/Album (Disc 2)/3 - Title.mp3"]
  /\ preview_group_visible (ui_ (UpdatePreviews dialog_0)) = true.
Proof.
  assert (IsValid (ui_format (ui_ dialog_0)) = true) as Hv by (vm_compute; reflexivity).
  assert (selected_storage dialog_0 = Some {| LocalPath := "/home/music" |}) as Hs
    by (vm_compute; reflexivity).
  assert (LocalPath {| LocalPath := "/home/music" |} <> "") as Hl by discriminate.
  pose proof (UpdatePreviews_local_preview dialog_0 _ Hv Hs Hl) as Hthm.
  destruct Hthm as (Hp & _ & Hg & _).
  split; [rewrite Hp; vm_compute; reflexivity | exact Hg].
Defined.

Lemma ok_button_never_stale_witness :
  ok_enabled (ui_ (perform_all actions_0 (showEvent ∅ dialog_0))) = true.
Proof.
  assert (forallb keeps_model actions_0 = true) as Ha by (vm_compute; reflexivity).
  apply (proj2 (ok_button_never_stale ∅ dialog_0 actions_0 Ha)).
  split; [vm_compute; reflexivity |].
  split; [eexists; vm_compute; reflexivity |].
  split; [vm_compute; discriminate |].
  intros [H _]. apply H. vm_compute. reflexivity.
Defined.

Lemma LoadPreviewSongs_only_appends_witness :
  LoadPreviewSongs fs_0 "/nothing" [song_2] = [song_2]
  /\ LoadPreviewSongs fs_many "/album" (List.repeat song_2 10) = List.repeat song_2 10.
Proof.
  pose proof (LoadPreviewSongs_only_appends fs_0 "/nothing" [song_2]) as Hthm.
  destruct Hthm as (_ & _ & Hnone & _).
  pose proof (LoadPreviewSongs_only_appends fs_many "/album" (List.repeat song_2 10))
    as Hthm.
  destruct Hthm as (_ & Hfull & _).
  split; [apply Hnone | apply Hfull].
  - vm_compute. reflexivity.
  - vm_compute. discriminate.
Defined.

Lemma SetUrls_keeps_file_urls_witness :
  filenames_ (SetUrls fs_0 urls_0 7 dialog_0) = ["/music/b.mp3"]
  /\ ok_enabled (ui_ (SetUrls fs_0 [QUrl_new "/music/a.mp3"] 7 dialog_0)) = false.
Proof.
  split.
  - rewrite (proj1 (SetUrls_keeps_file_urls fs_0 urls_0 7 dialog_0)).
    vm_compute. reflexivity.
  - apply (proj2 (proj2 (proj2
             (SetUrls_keeps_file_urls fs_0 [QUrl_new "/music/a.mp3"] 7 dialog_0)))).
    repeat constructor. vm_compute. discriminate.
Defined.

Lemma SetSongs_as_SetUrls_witness :
  SetSongs fs_0 [song_2] dialog_0
  = SetUrls fs_0 [QUrl_new (filename song_2)]
      (sum_sizes (List.filter counted [song_2]) mod 2 ^ 64) dialog_0.
Proof.
  apply (SetSongs_as_SetUrls fs_0 [song_2] dialog_0).
  repeat constructor; vm_compute; reflexivity.
Defined.

Lemma SetSongs_ok_enabled_witness :
  ok_enabled (ui_ (SetSongs fs_0 [song_remote] dialog_0)) = false.
Proof.
  apply not_true_is_false. intros H.
  apply (proj1 (SetSongs_ok_enabled fs_0 [song_remote] dialog_0)) in H.
  destruct H as (_ & _ & (song & [<- | []] & Hl) & _).
  vm_compute in Hl. discriminate Hl.
Defined.

Lemma showEvent_without_settings_witness :
  naming (ui_ (showEvent ∅ dialog_invalid)) = kDefaultFormat
  /\ overwrite (ui_ (showEvent ∅ dialog_invalid)) = true.
Proof.
  pose proof (showEvent_without_settings ∅ dialog_invalid
                (fun key => lookup_empty (settings_key key))) as Hthm.
  destruct Hthm as (_ & Hn & Ho & _).
  split; assumption.
Defined.

Lemma showEvent_restores_destination_witness :
  currentIndex (destination (ui_ (showEvent settings_phone dialog_0))) = 1.
Proof.
  pose proof (showEvent_restores_destination settings_phone dialog_0) as Hthm.
  destruct Hthm as (_ & _ & _ & Hfound).
  apply (Hfound 1%nat row_device).
  - vm_compute. discriminate.
  - vm_compute. reflexivity.
  - vm_compute. reflexivity.
  - intros j r Hj Hr. assert (j = 0%nat) as -> by lia.
    vm_compute in Hr. injection Hr as <-. vm_compute. discriminate.
Defined.

Lemma accept_writes_its_keys_only_witness :
  settings (fst (accept {| settings := settings_phone; started := [] |} dialog_0))
    !! "Other/key" = None
  /\ is_Some
       (settings (fst (accept world_0 dialog_0)) !! settings_key "overwrite").
Proof.
  pose proof (accept_writes_its_keys_only
                {| settings := settings_phone; started := [] |} dialog_0) as Hthm.
  destruct Hthm as (Hother & _).
  pose proof (accept_writes_its_keys_only world_0 dialog_0) as Hthm.
  destruct Hthm as (_ & Hkeys & _).
  split.
  - rewrite Hother; [vm_compute; reflexivity |].
    vm_compute. intros H.
    repeat (destruct H as [H | H]; [discriminate H |]). exact H.
  - apply Hkeys. vm_compute. tauto.
Defined.

Lemma InsertTag_replaces_selection_witness :
  exists before selected after : string,
    "%artist/%album" = before +:+ selected +:+ after
    /\ String.length before = 8%nat
    /\ String.length selected = 6%nat
    /\ naming (ui_ (InsertTag 8 6 "title"
                      (with_ui (ui_set_naming "%artist/%album") dialog_0)))
       = before +:+ "%title" +:+ after.
Proof.
  assert (8 + 6 <= String.length
                     (naming (ui_ (with_ui (ui_set_naming "%artist/%album") dialog_0))))%nat
    as Hc by (vm_compute; lia).
  pose proof (InsertTag_replaces_selection 8 6 "title"
                (with_ui (ui_set_naming "%artist/%album") dialog_0) Hc) as Hthm.
  destruct Hthm as (before & selected & after & H1 & H2 & H3 & _ & H4 & _).
  exists before, selected, after. repeat split; assumption.
Defined.

(** A tag inserted over a selection, and at a bare cursor. *)
Example InsertTag_over_selection :
  naming (ui_ (InsertTag 8 6 "title" (with_ui (ui_set_naming "%artist/%album") dialog_0)))
  = "%artist/%title"
  /\ naming (ui_ (InsertTag 8 0 "title" (with_ui (ui_set_naming "%artist/") dialog_0)))
     = "%artist/%title".
Proof. split; vm_compute; reflexivity. Qed.

Lemma tag_menu_offers_the_valid_tags_witness :
  length (tag_menu (fun title => title) String.le) = 16%nat
  /\ In ("Artist's initial", "artistinitial") (tag_menu (fun title => title) String.le).
Proof.
  assert (NoDup (List.map (fun title : string => title) (List.map fst tag_table)))
    as Hnd by (apply (bool_decide_unpack _); vm_compute; reflexivity).
  pose proof (tag_menu_offers_the_valid_tags (fun title => title) String.le) as Hthm.
  destruct Hthm as (_ & _ & _ & H).
  destruct (H Hnd) as [Hl Hall].
  split; [exact Hl |].
  apply (Hall "Artist's initial" "artistinitial"). vm_compute. tauto.
Defined.

(** Hidden entries give no preview song. *)
Example hidden_entries_give_no_preview :
  found_songs fs_hidden ["/dotted"] = []
  /\ preview_songs_ (SetFilenames fs_hidden ["/dotted"] 0 dialog_0) = []
  /\ preview_songs_ (SetFilenames fs_0 ["/music"] 0 dialog_0) = [song_1; song_2].
Proof. repeat split; vm_compute; reflexivity. Qed.

(** The menu of an untranslated dialog. *)
Example tag_menu_untranslated :
  tag_menu (fun title => title) String.le
  = [ ("Album", "album"); ("Album artist", "albumartist"); ("Artist", "artist");
      ("Artist's initial", "artistinitial"); ("BPM", "bpm"); ("Bitrate", "bitrate");
      ("Comment", "comment"); ("Composer", "composer"); ("Disc", "disc");
      ("File extension", "extension"); ("Genre", "genre"); ("Length", "length");
      ("Samplerate", "samplerate"); ("Title", "title"); ("Track", "track");
      ("Year", "year") ].
Proof. vm_compute. reflexivity. Qed.

End DialogRunProofs.
